(** * Registration / login / bearer-token service: model and verification

    Shallow embedding of the authentication core of the backend
    ([app/crud/user.py], [app/utils/auth.py], [app/dependencies/auth.py],
    [app/routers/auth.py]).

    A Python [str] is modelled by its UTF-8 encoding ([string]); a Python
    call that can raise returns a [result]; the SQLAlchemy session is an
    explicit state threaded through the handlers; the clock and the salt
    generator are explicit inputs.  The third-party libraries the code calls (passlib, python-jose)
    are interfaces with laws, each with an executable reference instance. *)

From Stdlib Require Import ZArith Ascii String List Lia Bool SpecFloat.
From stdpp Require Import base option list strings gmap.

Local Open Scope string_scope.
Local Open Scope Z_scope.

(** ** Python runtime: exceptions and results *)

Module Py.

(** The exception classes that can cross the functions of the model. *)
Inductive exn : Type :=
  | HTTPException (status_code : Z) (detail : string)
                  (headers : list (string * string))
  | IntegrityError          (* sqlalchemy.exc *)
  | InvalidRequestError     (* sqlalchemy.exc *)
  | UnknownHashError        (* passlib.exc, a ValueError *)
  | PasswordSizeError       (* passlib.exc, a ValueError *)
  | PasswordValueError      (* passlib.exc, a ValueError *)
  | JWSError                (* jose.exceptions *)
  | JWKError                (* jose.exceptions *)
  | JWTError                (* jose.exceptions *)
  | JWTClaimsError          (* jose.exceptions, a JWTError *)
  | ExpiredSignatureError   (* jose.exceptions, a JWTError *)
  | ValidationError         (* pydantic *)
  | AttributeError
  | TypeError
  | ValueError
  | OverflowError
  | RecursionError.

(** [except JWTError] catches the class and its two subclasses; [JWSError]
    and [JWKError] are siblings under [JOSEError] and are not caught. *)
Definition isinstance_JWTError (e : exn) : bool :=
  match e with
  | JWTError | JWTClaimsError | ExpiredSignatureError => true
  | _ => false
  end.

Definition isinstance_JWSError (e : exn) : bool :=
  match e with JWSError => true | _ => false end.

Definition isinstance_IntegrityError (e : exn) : bool :=
  match e with IntegrityError => true | _ => false end.

(** [ValueError] and the classes of the model derived from it. *)
Definition isinstance_ValueError (e : exn) : bool :=
  match e with
  | ValueError | UnknownHashError | PasswordSizeError | PasswordValueError => true
  | _ => false
  end.

Inductive result (A : Type) : Type :=
  | Ok (a : A)
  | Raise (e : exn).
Arguments Ok {A} a.
Arguments Raise {A} e.

Definition bind {A B} (r : result A) (k : A -> result B) : result B :=
  match r with Ok a => k a | Raise e => Raise e end.

(** [int(f)] on a [float] (sign, mantissa and binary exponent):
    truncation toward zero; [OverflowError] on an infinity, [ValueError]
    on NaN. *)
Definition int_of_float (f : spec_float) : result Z :=
  match f with
  | S754_zero _ => Ok 0
  | S754_infinity _ => Raise OverflowError
  | S754_nan => Raise ValueError
  | S754_finite negative mantissa exponent =>
      let magnitude :=
        if 0 <=? exponent then Z.pos mantissa * 2 ^ exponent
        else Z.pos mantissa / 2 ^ (- exponent) in
      Ok (if negative then - magnitude else magnitude)
  end.

(** Values a claims dictionary holds in this development: what JSON
    carries - [None], booleans, integers, floats, strings, lists and
    objects with string keys (the items of a [dict] in insertion order) -
    and [datetime] objects (microseconds since the epoch, UTC).  A [str]
    is modelled by its UTF-8 encoding.  Tuples, sets, bytes, keys that are
    no strings and objects of other classes are left out. *)
#[warnings="-register-all"]
Inductive pyval : Type :=
  | PNone
  | PBool (b : bool)
  | PInt (n : Z)
  | PFloat (f : spec_float)
  | PStr (s : string)
  | PList (l : list pyval)
  | PDict (items : list (string * pyval))
  | PDatetime (us : Z).

(** The kinds of value [json.dumps] prints and [json.loads] reads back
    unchanged: everything but a [datetime]; the keys of an object are
    pairwise distinct, as those of every [dict] are. *)
Fixpoint json_serialisable (v : pyval) : bool :=
  match v with
  | PDatetime _ => false
  | PList l => forallb json_serialisable l
  | PDict items =>
      forallb (fun item => json_serialisable item.2) items
      && bool_decide (NoDup items.*1)
  | _ => true
  end.

Definition json_ok (claims : gmap string pyval) : bool :=
  bool_decide (map_Forall (fun _ v => json_serialisable v = true) claims).

(** How deep lists and objects are nested inside a value. *)
Fixpoint depth (v : pyval) : nat :=
  match v with
  | PList l => S (foldr (fun v d => Nat.max (depth v) d) 0%nat l)
  | PDict items => S (foldr (fun item d => Nat.max (depth item.2) d) 0%nat items)
  | _ => 0%nat
  end.

(** Every integer inside a value has fewer than 14284 bits, and so at most
    4300 digits; beyond that many digits CPython refuses to print or read
    an [int]. *)
Fixpoint small_ints (v : pyval) : bool :=
  match v with
  | PInt n => Z.log2 (Z.abs n) <? 14284
  | PList l => forallb small_ints l
  | PDict items => forallb (fun item => small_ints item.2) items
  | _ => true
  end.

(** [json.dumps] and [json.loads] give up with [RecursionError] near the
    interpreter's recursion limit (1000 frames by default, some of them in
    use by the caller); nesting up to [MAX_NESTING] is well inside it. *)
Definition MAX_NESTING : nat := 100.

(** Claims of a size the [json] module is sure to handle.  The model does
    not represent the two limits; statements about every claims map of
    JSON kinds take this as a hypothesis. *)
Definition json_sized (claims : gmap string pyval) : bool :=
  bool_decide (map_Forall (fun _ v => small_ints v = true
                                      /\ (depth v <= MAX_NESTING)%nat) claims).

(** What [json.loads] yields: an object (a [Mapping]) or something else. *)
Inductive json_doc : Type :=
  | JObject (claims : gmap string pyval)
  | JOther (v : pyval).

End Py.
Export Py.

#[global] Instance result_bind : MBind result := fun A B k r => Py.bind r k.
#[global] Instance result_ret : MRet result := @Ok.

(** [str.lower()]. The development never looks inside it: two addresses
    are case variants of one another when [lower] maps them to the same
    string. *)
Class PyStr := { lower : string -> string }.

Definition case_variant {py : PyStr} (e e' : string) : Prop := lower e' = lower e.

(** ** passlib: [CryptContext(schemes=["bcrypt"], deprecated="auto")]

    The bcrypt handler is an interface: how a hash string is recognised,
    parsed and printed, how a fresh configuration (identifier, cost, salt)
    is built from the salt generator's output, and the digest itself.  The
    control flow around it is the library's: [CryptContext.verify]
    identifies the scheme of the hash first and raises [UnknownHashError]
    when none matches; the handler then checks the size of the secret
    ([len] of the [str], its characters), parses the hash (a plain
    [ValueError] on failure: passlib 1.7.4 builds it with helper functions
    such as [MalformedHashError], which are no classes), refuses a secret
    with a NUL byte, and compares digests. *)

Module Passlib.

Class Handler := {
  identify : string -> bool;
  from_string : string -> option (string * string);
  to_string : string -> string -> string;
  genconfig : string -> string;
  calc_checksum : string -> string -> string;
}.

(** A hash the handler has just printed is one it recognises and parses
    back into the configuration and digest it was printed from. *)
Class HandlerLaws {handler : Handler} : Prop := {
  identify_to_string : forall salt secret,
    identify (to_string (genconfig salt)
                        (calc_checksum (genconfig salt) secret)) = true;
  from_string_to_string : forall salt secret,
    from_string (to_string (genconfig salt)
                           (calc_checksum (genconfig salt) secret))
    = Some (genconfig salt, calc_checksum (genconfig salt) secret);
}.

Definition MAX_PASSWORD_SIZE : nat := 4096.

Fixpoint has_nul (s : string) : bool :=
  match s with
  | EmptyString => false
  | String c rest => Ascii.eqb c Ascii.zero || has_nul rest
  end.

(** A continuation byte of UTF-8, [10xxxxxx]. *)
Definition continuation (c : ascii) : bool :=
  match c with Ascii _ _ _ _ _ _ b6 b7 => b7 && negb b6 end.

(** [len(secret)] of the [str]: the characters, one for each byte of the
    encoding that is no continuation byte. *)
Fixpoint len (s : string) : nat :=
  match s with
  | EmptyString => 0
  | String c rest => ((if continuation c then 0 else 1) + len rest)%nat
  end.

(** [if len(secret) > MAX_PASSWORD_SIZE: raise PasswordSizeError]. *)
Definition validate_secret (secret : string) : result unit :=
  if Nat.ltb MAX_PASSWORD_SIZE (len secret)
  then Raise PasswordSizeError else Ok tt.

(** Secrets bcrypt takes: at most [MAX_PASSWORD_SIZE] bytes, hence
    characters, and none NUL. *)
Definition secret_accepted (secret : string) : bool :=
  negb (Nat.ltb MAX_PASSWORD_SIZE (String.length secret))
  && negb (has_nul secret).

Section Context_.
Context {handler : Handler}.

Definition digest (config secret : string) : result string :=
  if has_nul secret then Raise PasswordValueError
  else Ok (calc_checksum config secret).

(** [pwd_context.hash(secret)]; [salt] is the salt generator's output. *)
Definition hash (salt secret : string) : result string :=
  _ ← validate_secret secret;
  let config := genconfig salt in
  checksum ← digest config secret;
  mret (to_string config checksum).

(** [pwd_context.verify(secret, hash)] for a [str] hash. *)
Definition verify (secret hashed : string) : result bool :=
  if negb (identify hashed) then Raise UnknownHashError
  else
    _ ← validate_secret secret;
    match from_string hashed with
    | None => Raise ValueError
    | Some (config, checksum) =>
        computed ← digest config secret;
        mret (String.eqb computed checksum)
    end.

(** A hash string outside the scheme's self-describing format. *)
Definition malformed (hashed : string) : Prop :=
  identify hashed = false \/ from_string hashed = None.
End Context_.

End Passlib.

(** ** [datetime] arithmetic, in microseconds since the epoch *)

Module Datetime.

(** [datetime.min] and [datetime.max] (years 1 and 9999), UTC. *)
Definition MIN : Z := -62135596800000000.
Definition MAX : Z := 253402300799999999.

(** [timedelta.min] and [timedelta.max]: 999999999 days either way. *)
Definition DELTA_MIN : Z := -86399999913600000000.
Definition DELTA_MAX : Z := 86399999999999999999.

Definition in_range (t : Z) : bool := (MIN <=? t) && (t <=? MAX).

(** [t + d] on a [datetime] and a [timedelta]. *)
Definition add (t d : Z) : result Z :=
  if in_range (t + d) then Ok (t + d) else Raise OverflowError.

(** [timedelta(minutes=m)]. *)
Definition minutes (m : Z) : result Z :=
  let d := m * 60000000 in
  if (DELTA_MIN <=? d) && (d <=? DELTA_MAX) then Ok d else Raise OverflowError.

(** [timegm(t.utctimetuple())]: whole seconds, the microseconds dropped. *)
Definition timestamp (t : Z) : Z := t / 1000000.

End Datetime.

(** ** python-jose: [jwt.encode], [jws.verify] and [jwt.decode]

    Base64url, the JSON reader, the keys and their signatures are an
    interface; the code around them is the library's.  [jwt.encode] turns
    a [datetime] under "exp", "iat" or "nbf" into whole seconds before
    signing.  [jws.verify] splits the token at its dots, decodes and reads
    the header, checks its "alg" against [algorithms] and the signature
    against the key; whatever fails there with a [ValueError], a
    [binascii.Error] or a mismatch is raised as [JWSError], and anything
    else the reader or the key construction raises ([RecursionError] on
    deeply nested JSON, [JWKError] on key material the algorithm cannot
    use) is not handled.  [jwt.decode] turns [JWSError] and an unreadable
    payload into [JWTError], then validates the registered claims with the
    default options (no audience, issuer, subject or access token given,
    no leeway). *)

Module Jose.

Class Backend := {
  (* the algorithm is one of [ALGORITHMS.SUPPORTED] *)
  alg_supported : string -> bool;
  (* a key of the algorithm can be built from this key material *)
  key_usable : string -> string -> bool;
  jws_sign : gmap string pyval -> string -> string -> string;
  (* [base64url_decode(segment)]; [None] is [binascii.Error] *)
  base64url_decode : string -> option string;
  (* [json.loads(data.decode("utf-8"))]: the document, or what it raises *)
  json_loads : string -> result json_doc;
  (* [_sig_matches_keys(_get_keys(key), signing_input, signature, alg)]:
     whether a key built from the key material verifies the signature, or
     what building the key raises *)
  sig_matches_keys : string -> string -> string -> string -> result bool;
  (* [int(s)] on a [str]; [None] is [ValueError] *)
  int_of_str : string -> option Z;
}.

(** [jws.sign] takes this key with this algorithm. *)
Definition can_sign {backend : Backend} (key alg : string) : bool :=
  alg_supported alg && key_usable key alg.

Definition to_timestamp (v : pyval) : pyval :=
  match v with
  | PDatetime us => PInt (Datetime.timestamp us)
  | _ => v
  end.

(** [s.split(".", 1)]: the text before the first dot and the text after
    it; [None] when there is no dot. *)
Fixpoint split (s : string) : option (string * string) :=
  match s with
  | EmptyString => None
  | String c rest =>
      if Ascii.eqb c "." then Some (EmptyString, rest)
      else match split rest with
           | Some (before, after) => Some (String c before, after)
           | None => None
           end
  end.

(** [s.rsplit(".", 1)]: the text before the last dot and the text after
    it; [None] when there is no dot. *)
Fixpoint rsplit (s : string) : option (string * string) :=
  match s with
  | EmptyString => None
  | String c rest =>
      match rsplit rest with
      | Some (before, after) => Some (String c before, after)
      | None => if Ascii.eqb c "." then Some (EmptyString, rest) else None
      end
  end.

(** The header, claims and signature segments of a compact token, and
    its signing input (the first two with their dot):
    [signing_input, crypto_segment = jwt.rsplit(".", 1)] and
    [header_segment, claims_segment = signing_input.split(".", 1)];
    [None] when a dot is missing. *)
Definition segments (token : string)
  : option (string * string * string * string) :=
  match rsplit token with
  | None => None
  | Some (signing_input, crypto_segment) =>
      match split signing_input with
      | None => None
      | Some (header_segment, claims_segment) =>
          Some (header_segment, claims_segment, crypto_segment, signing_input)
      end
  end.

Section Jwt.
Context {backend : Backend}.

Definition encode (claims : gmap string pyval) (key algorithm : string)
  : result string :=
  let claims :=
    foldr (fun time_claim c => alter to_timestamp time_claim c) claims
          ["exp"; "iat"; "nbf"] in
  if negb (alg_supported algorithm) then Raise JWSError
  else if negb (json_ok claims) then Raise TypeError
  else if negb (key_usable key algorithm) then Raise JWSError
  else Ok (jws_sign claims key algorithm).

(** [int(v)] inside a claim validator: [ValueError] is turned into
    [JWTClaimsError]; [TypeError] and [OverflowError] are not handled. *)
Definition int_claim (v : pyval) : result Z :=
  match v with
  | PInt n => Ok n
  | PBool b => Ok (Z.b2z b)
  | PStr s =>
      match int_of_str s with
      | Some n => Ok n
      | None => Raise JWTClaimsError
      end
  | PFloat f =>
      match int_of_float f with
      | Ok n => Ok n
      | Raise e => if isinstance_ValueError e then Raise JWTClaimsError else Raise e
      end
  | _ => Raise TypeError
  end.

Definition validate_iat (claims : gmap string pyval) : result unit :=
  match claims !! "iat" with
  | None => Ok tt
  | Some v => _ ← int_claim v; mret tt
  end.

Definition validate_nbf (now : Z) (claims : gmap string pyval) : result unit :=
  match claims !! "nbf" with
  | None => Ok tt
  | Some v =>
      nbf ← int_claim v;
      if now <? nbf then Raise JWTClaimsError else Ok tt
  end.

(** [if exp < (now - leeway): raise ExpiredSignatureError], leeway 0. *)
Definition validate_exp (now : Z) (claims : gmap string pyval) : result unit :=
  match claims !! "exp" with
  | None => Ok tt
  | Some v =>
      exp ← int_claim v;
      if exp <? now then Raise ExpiredSignatureError else Ok tt
  end.

(** No audience is passed, so a token that names one is refused. *)
Definition validate_aud (claims : gmap string pyval) : result unit :=
  match claims !! "aud" with
  | None => Ok tt
  | Some _ => Raise JWTClaimsError
  end.

Definition validate_str (name : string) (claims : gmap string pyval)
  : result unit :=
  match claims !! name with
  | None | Some (PStr _) => Ok tt
  | Some _ => Raise JWTClaimsError
  end.

(** No access token is passed, so "at_hash" cannot be compared. *)
Definition validate_at_hash (claims : gmap string pyval) : result unit :=
  match claims !! "at_hash" with
  | None => Ok tt
  | Some _ => Raise JWTClaimsError
  end.

Definition validate_claims (now : Z) (claims : gmap string pyval)
  : result unit :=
  _ ← validate_iat claims;
  _ ← validate_nbf now claims;
  _ ← validate_exp now claims;
  _ ← validate_aud claims;
  _ ← validate_str "sub" claims;
  _ ← validate_str "jti" claims;
  validate_at_hash claims.

(** [_load(token)]: header, payload, signing input and signature. *)
Definition load (token : string)
  : result (gmap string pyval * string * string * string) :=
  match segments token with
  | None => Raise JWSError
  | Some (header_segment, claims_segment, crypto_segment, signing_input) =>
  match base64url_decode header_segment with
  | None => Raise JWSError
  | Some header_data =>
  match json_loads header_data with
  | Raise e => if isinstance_ValueError e then Raise JWSError else Raise e
  | Ok (JOther _) => Raise JWSError
  | Ok (JObject header) =>
  match base64url_decode claims_segment with
  | None => Raise JWSError
  | Some payload =>
  match base64url_decode crypto_segment with
  | None => Raise JWSError
  | Some signature => Ok (header, payload, signing_input, signature)
  end end end end end.

(** [_verify_signature]: [alg = header.get("alg")]; a missing or falsy
    [alg], and one that is no [str] and hence not in [algorithms], is
    refused before any key is built. *)
Definition verify_signature (signing_input : string)
    (header : gmap string pyval) (signature key : string)
    (algorithms : list string) : result unit :=
  match header !! "alg" with
  | Some (PStr alg) =>
      if String.eqb alg "" then Raise JWSError
      else if negb (bool_decide (alg ∈ algorithms)) then Raise JWSError
      else
        match sig_matches_keys key signing_input signature alg with
        | Ok true => Ok tt
        | Ok false => Raise JWSError
        | Raise e => if isinstance_JWSError e then Raise JWSError else Raise e
        end
  | _ => Raise JWSError
  end.

(** [jws.verify(token, key, algorithms)]. *)
Definition verify (token key : string) (algorithms : list string)
  : result string :=
  loaded ← load token;
  let '(header, payload, signing_input, signature) := loaded in
  _ ← verify_signature signing_input header signature key algorithms;
  mret payload.

(** [jwt.decode(token, key, algorithms=...)] read at clock [clock].  Between
    verifying and reading the payload the library calls
    [jws.get_unverified_header(token)["alg"]], which runs [_load] on the
    same token again and looks up the "alg" just checked; it adds no
    outcome and is left out. *)
Definition decode (clock : Z) (token key : string) (algorithms : list string)
  : result (gmap string pyval) :=
  match verify token key algorithms with
  | Raise e => if isinstance_JWSError e then Raise JWTError else Raise e
  | Ok payload =>
      match json_loads payload with
      | Raise e => if isinstance_ValueError e then Raise JWTError else Raise e
      | Ok (JOther _) => Raise JWTError
      | Ok (JObject claims) =>
          _ ← validate_claims (Datetime.timestamp clock) claims;
          mret claims
      end
  end.
End Jwt.

(** What was just signed loads back: the header names the algorithm, the
    payload reads back as the signed claims, and the key verifies the
    signature.  No supported algorithm has an empty name. *)
Class BackendLaws {backend : Backend} : Prop := {
  load_sign : forall (claims : gmap string pyval) key alg,
    can_sign key alg = true ->
    json_ok claims = true ->
    exists header payload signing_input signature,
      load (jws_sign claims key alg)
      = Ok (header, payload, signing_input, signature)
      /\ header !! "alg" = Some (PStr alg)
      /\ json_loads payload = Ok (JObject claims)
      /\ sig_matches_keys key signing_input signature alg = Ok true;
  alg_supported_named : alg_supported "" = false;
}.

End Jose.

(** ** The [users] table and the SQLAlchemy session *)

Module User.
(** Modelled from the spec: [app/models/user.py] is not among the
    sources.  The record has the columns the tests read ([id],
    [username], [email], [password_hash], [is_active]; the two timestamps
    are left out); the store refuses an insert whose identity or
    alternate key is already taken ([insert(record) -> id |
    UniqueViolation]). [id] is [None] until the row is flushed. *)
Record t : Type := mk {
  id : option Z;
  username : string;
  email : string;
  password_hash : string;
  is_active : bool;
}.
End User.

Module Orm.

(** [rows] is the committed table, shared with every other client of the
    database; [new] holds the objects this session has added and not yet
    flushed. *)
Record Session : Type := mkSession {
  rows : list User.t;
  new : list User.t;
}.

Definition M (A : Type) : Type := Session -> result A * Session.

Definition ret {A} (a : A) : M A := fun db => (Ok a, db).

Definition bind {A B} (m : M A) (k : A -> M B) : M B :=
  fun db =>
    match m db with
    | (Ok a, db') => k a db'
    | (Raise e, db') => (Raise e, db')
    end.

Definition raise {A} (e : exn) : M A := fun db => (Raise e, db).

Definition lift {A} (r : result A) : M A := fun db => (r, db).

(** [try: body except <class>: handler], the class given by [catches]. *)
Definition try_except {A} (body : M A) (catches : exn -> bool) (handler : M A)
  : M A :=
  fun db =>
    match body db with
    | (Raise e, db') => if catches e then handler db' else (Raise e, db')
    | ok => ok
    end.

(** The unique constraints on [email] and [username]. *)
Definition violates (u : User.t) (table : list User.t) : bool :=
  existsb (fun r => String.eqb (User.email r) (User.email u)
                    || String.eqb (User.username r) (User.username u)) table.

(** The next primary key: one past the largest in the table. *)
Definition fresh_id (table : list User.t) : Z :=
  1 + foldr (fun r acc => Z.max (default 0 (User.id r)) acc) 0 table.

Definition insert (u : User.t) (table : list User.t) : list User.t :=
  table ++ [User.mk (Some (fresh_id table)) (User.username u) (User.email u)
                    (User.password_hash u) (User.is_active u)].

Fixpoint flush (pending table : list User.t) : option (list User.t) :=
  match pending with
  | [] => Some table
  | u :: rest => if violates u table then None else flush rest (insert u table)
  end.

Definition add (u : User.t) : M unit :=
  fun db => (Ok tt, mkSession (rows db) (new db ++ [u])).

(** [db.commit()]: all pending rows go in, or none and [IntegrityError];
    on failure the pending objects stay attached until [rollback]. *)
Definition commit : M unit :=
  fun db =>
    match flush (new db) (rows db) with
    | Some table => (Ok tt, mkSession table [])
    | None => (Raise IntegrityError, db)
    end.

Definition rollback : M unit :=
  fun db => (Ok tt, mkSession (rows db) []).

(** [db.query(User).filter(p).first()] *)
Definition query_first (p : User.t -> bool) : M (option User.t) :=
  fun db => (Ok (List.find p (rows db)), db).

(** [db.refresh(u)] after a flush: the row of [u], found by its unique
    [email]. *)
Definition refresh (u : User.t) : M User.t :=
  fun db =>
    match List.find (fun r => String.eqb (User.email r) (User.email u)) (rows db) with
    | Some r => (Ok r, db)
    | None => (Raise InvalidRequestError, db)
    end.

(** A committed transaction of another client: the table changes under
    the session. *)
Definition concurrently (other : list User.t -> list User.t) : M unit :=
  fun db => (Ok tt, mkSession (other (rows db)) (new db)).

End Orm.
Export Orm.

#[global] Instance M_bind : MBind M := fun A B k m => Orm.bind m k.
#[global] Instance M_ret : MRet M := @Orm.ret.

(** ** Request and response schemas, configuration *)

Module UserCreate.
Record t : Type := mk { username : string; email : string; password : string }.
End UserCreate.

Module UserLogin.
Record t : Type := mk { email : string; password : string }.
End UserLogin.

Module Token.
Record t : Type := mk { access_token : string; token_type : string }.
End Token.

(** [app.config.settings]: the three values the code reads. *)
Record Settings : Type := mkSettings {
  SECRET_KEY : string;
  ALGORITHM : string;
  ACCESS_TOKEN_EXPIRE_MINUTES : Z;
}.

Definition HTTP_401_UNAUTHORIZED : Z := 401.
Definition HTTP_409_CONFLICT : Z := 409.

(** ** The application *)

Section App.
Context {py : PyStr} {handler : Passlib.Handler} {backend : Jose.Backend}.
Variable settings : Settings.

(** *** [app/crud/user.py] *)

Definition get_password_hash (salt password : string) : result string :=
  Passlib.hash salt password.

Definition verify_password (plain_password hashed_password : string)
  : result bool :=
  Passlib.verify plain_password hashed_password.

Definition create_user (salt username email password : string) : M User.t :=
  password_hash ← lift (get_password_hash salt password);
  let db_user := User.mk None username (lower email) password_hash true in
  _ ← add db_user;
  _ ← commit;
  refresh db_user.

Definition get_user_by_email (email : string) : M (option User.t) :=
  query_first (fun u => String.eqb (User.email u) (lower email)).

Definition get_user_by_username (username : string) : M (option User.t) :=
  query_first (fun u => String.eqb (User.username u) username).

Definition get_user_by_id (user_id : Z) : M (option User.t) :=
  query_first (fun u => bool_decide (User.id u = Some user_id)).

(** *** [app/utils/auth.py] *)

Definition create_access_token (clock : Z) (data : gmap string pyval)
    (expires_delta : option Z) : result string :=
  let to_encode := data in
  let default_expiry :=
    delta ← Datetime.minutes (ACCESS_TOKEN_EXPIRE_MINUTES settings);
    Datetime.add clock delta in
  expire ← match expires_delta with
           | Some delta =>
               if delta =? 0 then default_expiry else Datetime.add clock delta
           | None => default_expiry
           end;
  let to_encode := <["exp" := PDatetime expire]> to_encode in
  Jose.encode to_encode (SECRET_KEY settings) (ALGORITHM settings).

Definition decode_access_token (clock : Z) (token : string)
  : result (option (gmap string pyval)) :=
  match Jose.decode clock token (SECRET_KEY settings) [ALGORITHM settings] with
  | Ok payload => Ok (Some payload)
  | Raise e => if isinstance_JWTError e then Ok None else Raise e
  end.

(** *** [app/schemas/auth.py], [TokenData(email=...)]: a [str] or [None] *)

Definition TokenData (email : pyval) : result (option string) :=
  match email with
  | PNone => Ok None
  | PStr s => Ok (Some s)
  | _ => Raise ValidationError
  end.

(** *** [app/dependencies/auth.py] *)

Definition credentials_exception : exn :=
  HTTPException HTTP_401_UNAUTHORIZED "Could not validate credentials"
                [("WWW-Authenticate", "Bearer")].

Definition get_current_user (clock : Z) (token : string) : M User.t :=
  payload ← lift (decode_access_token clock token);
  match payload with
  | None => raise credentials_exception
  | Some payload =>
      match payload !! "sub" with
      | None | Some PNone => raise credentials_exception
      | Some email =>
          token_data ← lift (TokenData email);
          match token_data with
          | None => raise AttributeError
          | Some token_email =>
              user ← get_user_by_email token_email;
              match user with
              | None => raise credentials_exception
              | Some user => mret user
              end
          end
      end
  end.

(** *** [app/routers/auth.py] *)

(** Lines 33-47: the two duplicate checks. *)
Definition register_checks (user_data : UserCreate.t) : M unit :=
  existing_email ← get_user_by_email (UserCreate.email user_data);
  match existing_email with
  | Some _ =>
      raise (HTTPException HTTP_409_CONFLICT "Email already registered" [])
  | None =>
      existing_username ← get_user_by_username (UserCreate.username user_data);
      match existing_username with
      | Some _ =>
          raise (HTTPException HTTP_409_CONFLICT "Username already taken" [])
      | None => mret tt
      end
  end.

(** Lines 49-62: the write, with its handler. *)
Definition register_create (salt : string) (user_data : UserCreate.t)
  : M User.t :=
  try_except
    (create_user salt (UserCreate.username user_data)
                 (UserCreate.email user_data) (UserCreate.password user_data))
    isinstance_IntegrityError
    (_ ← rollback;
     raise (HTTPException HTTP_409_CONFLICT "User already exists" [])).

Definition register (salt : string) (user_data : UserCreate.t) : M User.t :=
  _ ← register_checks user_data;
  register_create salt user_data.

(** [register] with another client's transaction committed between the
    checks and the write. *)
Definition register_racing (other : list User.t -> list User.t)
    (salt : string) (user_data : UserCreate.t) : M User.t :=
  _ ← register_checks user_data;
  _ ← concurrently other;
  register_create salt user_data.

Definition login (clock : Z) (user_data : UserLogin.t) : M Token.t :=
  user ← get_user_by_email (UserLogin.email user_data);
  match user with
  | None =>
      raise (HTTPException HTTP_401_UNAUTHORIZED "Incorrect email or password"
                           [("WWW-Authenticate", "Bearer")])
  | Some user =>
      verified ← lift (verify_password (UserLogin.password user_data)
                                       (User.password_hash user));
      if negb verified then
        raise (HTTPException HTTP_401_UNAUTHORIZED "Incorrect email or password"
                             [("WWW-Authenticate", "Bearer")])
      else
        access_token_expires ←
          lift (Datetime.minutes (ACCESS_TOKEN_EXPIRE_MINUTES settings));
        access_token ←
          lift (create_access_token clock {["sub" := PStr (User.email user)]}
                                    (Some access_token_expires));
        mret (Token.mk access_token "bearer")
  end.

Definition get_me (current_user : User.t) : User.t := current_user.
End App.

(** ** Reference instances

    Executable stand-ins for the three interfaces, used to run the model
    on concrete inputs. *)

Module Ref.

(** *** ASCII [lower] *)

Definition ascii_lower (c : ascii) : ascii :=
  let n := nat_of_ascii c in
  if (Nat.leb 65 n && Nat.leb n 90)%bool then ascii_of_nat (n + 32) else c.

Fixpoint str_lower (s : string) : string :=
  match s with
  | EmptyString => EmptyString
  | String c rest => String (ascii_lower c) (str_lower rest)
  end.

Definition settings : Settings := mkSettings "change-me" "HS256" 30.

#[export] Instance py_str : PyStr := {| lower := str_lower |}.

(** *** bcrypt hash strings: ["$2b$12$"], 22 characters of salt, 31 of
    digest.  [checksum] stands in for the Blowfish digest; only its length
    matters to the format. *)

Fixpoint str_take (n : nat) (s : string) : string :=
  match n, s with
  | S n', String c rest => String c (str_take n' rest)
  | _, _ => EmptyString
  end.

Fixpoint str_drop (n : nat) (s : string) : string :=
  match n, s with
  | S n', String _ rest => str_drop n' rest
  | _, _ => s
  end.

Definition pad (n : nat) (s : string) : string :=
  str_take n (s +:+ string_of_list_ascii (repeat "."%char n)).

Fixpoint starts_with (p s : string) : bool :=
  match p, s with
  | EmptyString, _ => true
  | String a p', String b s' => Ascii.eqb a b && starts_with p' s'
  | String _ _, EmptyString => false
  end.

Definition IDENT : string := "$2b$12$".

Definition bcrypt_identify (h : string) : bool :=
  existsb (fun ident => starts_with ident h)
          ["$2b$"; "$2a$"; "$2y$"; "$2x$"; "$2$"].

Definition bcrypt_genconfig (salt : string) : string := IDENT +:+ pad 22 salt.

Definition scramble (c : ascii) : ascii :=
  ascii_of_nat (48 + (7 * nat_of_ascii c + 13) mod 64).

Fixpoint str_map (f : ascii -> ascii) (s : string) : string :=
  match s with
  | EmptyString => EmptyString
  | String c rest => String (f c) (str_map f rest)
  end.

Definition checksum (config secret : string) : string :=
  pad 31 (str_map scramble (secret +:+ str_drop 7 config)).

Definition bcrypt_to_string (config chk : string) : string := config +:+ chk.

Definition bcrypt_from_string (h : string) : option (string * string) :=
  if (starts_with IDENT h && Nat.eqb (String.length h) 60)%bool
  then Some (str_take 29 h, str_drop 29 h)
  else None.

#[export] Instance bcrypt : Passlib.Handler := {|
  Passlib.identify := bcrypt_identify;
  Passlib.from_string := bcrypt_from_string;
  Passlib.to_string := bcrypt_to_string;
  Passlib.genconfig := bcrypt_genconfig;
  Passlib.calc_checksum := checksum;
|}.

(** *** A transparent token format: three dot-separated segments of
    bits - the header, the claims, and the key with a checksum of the
    signing input in place of the MAC.  Base64url is the identity. *)

Fixpoint pos_to_str (p : positive) : string :=
  match p with
  | xH => EmptyString
  | xO q => String "0"%char (pos_to_str q)
  | xI q => String "1"%char (pos_to_str q)
  end.

Fixpoint str_to_pos (s : string) : option positive :=
  match s with
  | EmptyString => Some xH
  | String c rest =>
      if Ascii.eqb c "0"%char then xO <$> str_to_pos rest
      else if Ascii.eqb c "1"%char then xI <$> str_to_pos rest
      else None
  end.

Definition float_to_tree (f : spec_float) : gen_tree (bool + Z + string) :=
  match f with
  | S754_zero s => GenNode 3 [GenLeaf (inl (inl s))]
  | S754_infinity s => GenNode 4 [GenLeaf (inl (inl s))]
  | S754_nan => GenNode 5 []
  | S754_finite s m e =>
      GenNode 6 [GenLeaf (inl (inl s)); GenLeaf (inl (inr (Z.pos m)));
                 GenLeaf (inl (inr e))]
  end.

Fixpoint pyval_to_tree (v : pyval) : gen_tree (bool + Z + string) :=
  match v with
  | PNone => GenNode 0 []
  | PBool b => GenLeaf (inl (inl b))
  | PInt n => GenLeaf (inl (inr n))
  | PFloat f => float_to_tree f
  | PStr s => GenLeaf (inr s)
  | PList l => GenNode 1 (map pyval_to_tree l)
  | PDict items =>
      GenNode 7 (map (fun item => GenNode 8 [GenLeaf (inr item.1);
                                             pyval_to_tree item.2]) items)
  | PDatetime us => GenNode 2 [GenLeaf (inl (inr us))]
  end.

Fixpoint pyval_of_tree (t : gen_tree (bool + Z + string)) : option pyval :=
  match t with
  | GenNode 0 [] => Some PNone
  | GenLeaf (inl (inl b)) => Some (PBool b)
  | GenLeaf (inl (inr n)) => Some (PInt n)
  | GenLeaf (inr s) => Some (PStr s)
  | GenNode 1 ts => PList <$> mapM pyval_of_tree ts
  | GenNode 2 [GenLeaf (inl (inr us))] => Some (PDatetime us)
  | GenNode 3 [GenLeaf (inl (inl s))] => Some (PFloat (S754_zero s))
  | GenNode 4 [GenLeaf (inl (inl s))] => Some (PFloat (S754_infinity s))
  | GenNode 5 [] => Some (PFloat S754_nan)
  | GenNode 6 [GenLeaf (inl (inl s)); GenLeaf (inl (inr (Z.pos m)));
               GenLeaf (inl (inr e))] => Some (PFloat (S754_finite s m e))
  | GenNode 7 ts =>
      PDict <$> mapM (fun t =>
                        match t with
                        | GenNode 8 [GenLeaf (inr k); tv] =>
                            pair k <$> pyval_of_tree tv
                        | _ => None
                        end) ts
  | _ => None
  end.

(** Induction over [pyval] that reaches inside lists and objects. *)
Lemma pyval_nested_ind (P : pyval -> Prop) :
  P PNone -> (forall b, P (PBool b)) -> (forall n, P (PInt n)) ->
  (forall f, P (PFloat f)) ->
  (forall s, P (PStr s)) -> (forall l, Forall P l -> P (PList l)) ->
  (forall items, Forall (fun item => P item.2) items -> P (PDict items)) ->
  (forall us, P (PDatetime us)) -> forall v, P v.
Proof.
  intros HN HB HI HF HS HL HO HD.
  fix IH 1.
  intros [ | b | n | f | s | l | items | us];
    [exact HN | apply HB | apply HI | apply HF | apply HS | | | apply HD].
  - apply HL. induction l as [ | v l IHl]; constructor; [apply IH | exact IHl].
  - apply HO. induction items as [ | [k v] items IHitems]; constructor;
      [apply IH | exact IHitems].
Qed.

Lemma pyval_of_to_tree (v : pyval) : pyval_of_tree (pyval_to_tree v) = Some v.
Proof.
  induction v as [ | b | n | f | s | l IHl | items IHitems | us]
    using pyval_nested_ind; try reflexivity.
  - destruct f; reflexivity.
  - cbn [pyval_to_tree pyval_of_tree].
    assert (Hl : mapM pyval_of_tree (map pyval_to_tree l) = Some l).
    { induction IHl as [ | v l Hv _ IH]; [reflexivity | ].
      cbn. rewrite Hv. cbn. rewrite IH. reflexivity. }
    rewrite Hl. reflexivity.
  - cbn [pyval_to_tree pyval_of_tree].
    match goal with |- PDict <$> ?m = _ => assert (Hl : m = Some items) end.
    { induction IHitems as [ | [k v] items Hv _ IH]; [reflexivity | ].
      cbn in *. rewrite Hv. cbn. rewrite IH. reflexivity. }
    rewrite Hl. reflexivity.
Qed.

#[export] Instance pyval_eq_dec : EqDecision pyval.
Proof.
  intros x y. destruct (decide (pyval_to_tree x = pyval_to_tree y)) as [E | N].
  - left. apply (f_equal pyval_of_tree) in E.
    rewrite !pyval_of_to_tree in E. congruence.
  - right. congruence.
Defined.

#[export] Instance pyval_countable : Countable pyval :=
  inj_countable pyval_to_tree pyval_of_tree pyval_of_to_tree.

Lemma str_to_pos_to_str (p : positive) : str_to_pos (pos_to_str p) = Some p.
Proof. induction p as [q IH | q IH | ]; cbn; rewrite ?IH; reflexivity. Qed.

Definition segment {A} `{Countable A} (a : A) : string := pos_to_str (encode a).

Definition header (alg : string) : gmap string pyval :=
  {["alg" := PStr alg; "typ" := PStr "JWT"]}.

Definition claims_segment (claims : gmap string pyval) : string :=
  segment claims.

Definition signing_input (claims : gmap string pyval) (alg : string) : string :=
  claims_segment (header alg) +:+ "." +:+ claims_segment claims.

(** A polynomial checksum of the signing input, in place of its hash. *)
Fixpoint checksum_of (input : string) (acc : N) : N :=
  match input with
  | EmptyString => acc
  | String c rest =>
      checksum_of rest ((acc * 257 + N_of_ascii c) mod 1000000007)%N
  end.

Definition mac (key input : string) : string :=
  segment (key, checksum_of input 0%N).

Definition jws_sign (claims : gmap string pyval) (key alg : string) : string :=
  signing_input claims alg +:+ "." +:+ mac key (signing_input claims alg).

Definition base64url_decode (s : string) : option string := Some s.

Definition json_loads (data : string) : result json_doc :=
  match str_to_pos data ≫= decode with
  | Some claims => Ok (JObject claims)
  | None => Raise ValueError
  end.

Fixpoint digits (s : string) (acc : Z) : option Z :=
  match s with
  | EmptyString => Some acc
  | String c rest =>
      let n := nat_of_ascii c in
      if (Nat.leb 48 n && Nat.leb n 57)%bool
      then digits rest (10 * acc + Z.of_nat (n - 48))
      else None
  end.

Definition int_of_str (s : string) : option Z :=
  match s with
  | EmptyString => None
  | String "-"%char (String c rest) => Z.opp <$> digits (String c rest) 0
  | _ => digits s 0
  end.

Definition alg_supported (alg : string) : bool :=
  bool_decide (alg ∈ ["HS256"; "HS384"; "HS512"]).

Definition key_usable (key alg : string) : bool :=
  negb (starts_with "-----BEGIN " key).

Definition sig_matches_keys (key input signature alg : string) : result bool :=
  if negb (alg_supported alg && key_usable key alg) then Raise JWKError
  else Ok (String.eqb signature (mac key input)).

#[export] Instance jose : Jose.Backend := {|
  Jose.alg_supported := alg_supported;
  Jose.key_usable := key_usable;
  Jose.jws_sign := jws_sign;
  Jose.base64url_decode := base64url_decode;
  Jose.json_loads := json_loads;
  Jose.sig_matches_keys := sig_matches_keys;
  Jose.int_of_str := int_of_str;
|}.

Lemma app_cons (c : ascii) (a b : string) :
  String c a +:+ b = String c (a +:+ b).
Proof. reflexivity. Qed.

Lemma app_nil (b : string) : "" +:+ b = b.
Proof. reflexivity. Qed.

Lemma split_bits (p : positive) : Jose.split (pos_to_str p) = None.
Proof. induction p as [q IH | q IH | ]; cbn; rewrite ?IH; reflexivity. Qed.

Lemma rsplit_bits (p : positive) : Jose.rsplit (pos_to_str p) = None.
Proof. induction p as [q IH | q IH | ]; cbn; rewrite ?IH; reflexivity. Qed.

Lemma split_app (a b : string) :
  Jose.split a = None -> Jose.split (a +:+ String "." b) = Some (a, b).
Proof.
  induction a as [ | c a IH]; rewrite ?app_nil, ?app_cons; cbn [Jose.split];
    [reflexivity | ].
  destruct (Ascii.eqb c "."); [discriminate | ].
  destruct (Jose.split a) as [[before after] | ]; [discriminate | ].
  intros _. rewrite IH by reflexivity. reflexivity.
Qed.

Lemma rsplit_app (a b : string) :
  Jose.rsplit b = None -> Jose.rsplit (a +:+ String "." b) = Some (a, b).
Proof.
  intros Hb. induction a as [ | c a IH]; rewrite ?app_nil, ?app_cons;
    cbn [Jose.rsplit].
  - rewrite Hb. reflexivity.
  - rewrite IH. reflexivity.
Qed.

Lemma json_loads_segment (claims : gmap string pyval) :
  json_loads (claims_segment claims) = Ok (JObject claims).
Proof.
  unfold json_loads, claims_segment, segment. rewrite str_to_pos_to_str. cbn.
  rewrite decode_encode. reflexivity.
Qed.

#[export] Instance jose_laws : Jose.BackendLaws.
Proof.
  constructor; [ | reflexivity].
  intros claims key alg Hsign _.
  exists (header alg), (claims_segment claims), (signing_input claims alg),
    (mac key (signing_input claims alg)).
  split; [ | split; [reflexivity | split]].
  - unfold Jose.load, Jose.segments. cbn [Jose.jws_sign jose].
    change (jws_sign claims key alg)
      with (signing_input claims alg
            +:+ String "." (mac key (signing_input claims alg))).
    rewrite rsplit_app by apply rsplit_bits.
    change (signing_input claims alg)
      with (claims_segment (header alg) +:+ String "." (claims_segment claims))
      at 1.
    rewrite split_app by apply split_bits.
    cbn [Jose.base64url_decode Jose.json_loads jose base64url_decode].
    rewrite json_loads_segment. reflexivity.
  - apply json_loads_segment.
  - cbn. unfold sig_matches_keys. unfold Jose.can_sign in Hsign. cbn in Hsign.
    rewrite Hsign. cbn. rewrite String.eqb_refl. reflexivity.
Qed.

(** The bcrypt format parses back. *)

Lemma length_str_take (n : nat) (s : string) :
  (n <= String.length s)%nat -> String.length (str_take n s) = n.
Proof.
  revert s. induction n as [ | n IH]; intros [ | c s]; cbn; intros Hn;
    try reflexivity; try lia. rewrite IH; [reflexivity | lia].
Qed.

Lemma str_length_app (a b : string) :
  String.length (a +:+ b) = (String.length a + String.length b)%nat.
Proof.
  induction a as [ | c a IH]; rewrite ?app_nil, ?app_cons; simpl; congruence.
Qed.

Lemma length_dots (n : nat) :
  String.length (string_of_list_ascii (repeat "."%char n)) = n.
Proof. induction n as [ | n IH]; simpl; congruence. Qed.

Lemma length_pad (n : nat) (s : string) : String.length (pad n s) = n.
Proof.
  unfold pad. apply length_str_take. rewrite str_length_app, length_dots. lia.
Qed.

Lemma str_take_app (a b : string) : str_take (String.length a) (a +:+ b) = a.
Proof.
  induction a as [ | c a IH]; rewrite ?app_nil, ?app_cons; simpl;
    [destruct b; reflexivity | congruence].
Qed.

Lemma str_drop_app (a b : string) : str_drop (String.length a) (a +:+ b) = b.
Proof.
  induction a as [ | c a IH]; rewrite ?app_nil, ?app_cons; simpl;
    [destruct b; reflexivity | congruence].
Qed.

Lemma length_genconfig (salt : string) :
  String.length (bcrypt_genconfig salt) = 29%nat.
Proof. unfold bcrypt_genconfig. rewrite str_length_app, length_pad. reflexivity. Qed.

#[export] Instance bcrypt_laws : Passlib.HandlerLaws.
Proof.
  constructor; intros salt secret.
  - reflexivity.
  - change (bcrypt_from_string
              (bcrypt_genconfig salt +:+ checksum (bcrypt_genconfig salt) secret)
            = Some (bcrypt_genconfig salt, checksum (bcrypt_genconfig salt) secret)).
    unfold bcrypt_from_string.
    assert (Hp : starts_with IDENT
                   (bcrypt_genconfig salt +:+ checksum (bcrypt_genconfig salt) secret)
                 = true) by reflexivity.
    rewrite Hp, str_length_app, length_genconfig. unfold checksum at 1.
    rewrite length_pad. cbn [Nat.add Nat.eqb andb].
    rewrite <- (length_genconfig salt).
    rewrite str_take_app, str_drop_app. reflexivity.
Qed.

End Ref.

(** ** Verification *)

(** Unfolding the two monads. *)
Ltac unfold_monad :=
  unfold mbind, mret, M_bind, M_ret, result_bind, result_ret,
    Orm.bind, Orm.ret, Orm.raise, Orm.lift, Py.bind.

(** *** Credential hasher *)

Section Hasher.
Context {handler : Passlib.Handler} {handler_laws : Passlib.HandlerLaws}.

Lemma len_le_length (s : string) : (Passlib.len s <= String.length s)%nat.
Proof.
  induction s as [ | c s IH]; cbn [Passlib.len String.length]; [lia | ].
  destruct (Passlib.continuation c); lia.
Qed.

Lemma validate_secret_accepted (secret : string) :
  Passlib.secret_accepted secret = true ->
  Passlib.validate_secret secret = Ok tt /\ Passlib.has_nul secret = false.
Proof.
  unfold Passlib.secret_accepted, Passlib.validate_secret.
  intros [Hsize Hnul]%andb_true_iff.
  apply negb_true_iff in Hsize, Hnul. apply Nat.ltb_ge in Hsize.
  pose proof (len_le_length secret) as Hlen.
  destruct (Nat.ltb_spec Passlib.MAX_PASSWORD_SIZE (Passlib.len secret)); [lia | ].
  split; [reflexivity | exact Hnul].
Qed.

(** Hashing an accepted secret returns a hash, and that hash verifies. *)
Lemma hash_then_verify (salt secret : string) :
  Passlib.secret_accepted secret = true ->
  exists hashed,
    Passlib.hash salt secret = Ok hashed /\ Passlib.verify secret hashed = Ok true.
Proof.
  intros [Hsize Hnul]%validate_secret_accepted.
  exists (Passlib.to_string (Passlib.genconfig salt)
            (Passlib.calc_checksum (Passlib.genconfig salt) secret)).
  unfold Passlib.hash, Passlib.verify, Passlib.digest. unfold_monad.
  rewrite Hsize, Hnul, Passlib.identify_to_string. cbn.
  rewrite Passlib.from_string_to_string, String.eqb_refl. split; reflexivity.
Qed.


(** C5, as amended: for every secret and every malformed hash string,
    [verify_password] raises, and what it raises is a [ValueError]:
    [UnknownHashError] when no bcrypt identifier starts the string;
    otherwise [PasswordSizeError] when the secret has more than 4096
    characters, and a plain [ValueError] from parsing the hash when it has
    not.  It has no handler of its own and so never returns false there. *)
Theorem verify_password_malformed_raises (secret hashed : string) :
  Passlib.malformed hashed ->
  exists e,
    verify_password secret hashed = Raise e
    /\ isinstance_ValueError e = true
    /\ e = (if negb (Passlib.identify hashed) then UnknownHashError
            else if Nat.ltb Passlib.MAX_PASSWORD_SIZE (Passlib.len secret)
                 then PasswordSizeError
                 else ValueError).
Proof using handler.
  intros Hmal. unfold verify_password, Passlib.verify, Passlib.validate_secret.
  unfold_monad.
  destruct (Passlib.identify hashed) eqn:Hid; cbn [negb].
  - destruct Hmal as [Hmal | Hmal]; [congruence | ]. rewrite Hmal.
    destruct (Nat.ltb Passlib.MAX_PASSWORD_SIZE (Passlib.len secret));
      eexists; (split; [reflexivity | split; reflexivity]).
  - eexists; (split; [reflexivity | split; reflexivity]).
Qed.

End Hasher.




(** C5 at a string that is no bcrypt hash, and at one that starts like a
    bcrypt hash and has too short a salt. *)
Lemma verify_password_malformed_raises_witness :
  (exists e,
     verify_password (handler := Ref.bcrypt) "longenough1" "not-a-hash" = Raise e
     /\ isinstance_ValueError e = true
     /\ e = UnknownHashError)
  /\ (exists e,
        verify_password (handler := Ref.bcrypt) "longenough1" "$2b$12$short"
        = Raise e
        /\ isinstance_ValueError e = true
        /\ e = ValueError).
Proof.
  split.
  - apply (verify_password_malformed_raises (handler := Ref.bcrypt)
             "longenough1" "not-a-hash").
    left. reflexivity.
  - apply (verify_password_malformed_raises (handler := Ref.bcrypt)
             "longenough1" "$2b$12$short").
    right. reflexivity.
Defined.

(** C5 as first stated fails: the result is an exception, not false. *)
Lemma verify_password_malformed_counterexample :
  Passlib.malformed (handler := Ref.bcrypt) "not-a-hash"
  /\ verify_password (handler := Ref.bcrypt) "longenough1" "not-a-hash"
     = Raise UnknownHashError
  /\ Passlib.malformed (handler := Ref.bcrypt) "$2b$12$short"
  /\ verify_password (handler := Ref.bcrypt) "longenough1" "$2b$12$short"
     = Raise ValueError.
Proof. repeat split; [left | right]; reflexivity. Qed.

(** *** Token codec *)

(** Claims the codec's default validation lets through besides "exp":
    nothing under "iat", "nbf", "aud" or "at_hash", strings (if anything)
    under "sub" and "jti", and every value of a type [json.dumps] takes. *)
Definition absent (data : gmap string pyval) (name : string) : bool :=
  match data !! name with None => true | Some _ => false end.

Definition str_or_absent (data : gmap string pyval) (name : string) : bool :=
  match data !! name with None | Some (PStr _) => true | Some _ => false end.

Definition plain_claims (data : gmap string pyval) : bool :=
  json_ok data
  && forallb (absent data) ["iat"; "nbf"; "aud"; "at_hash"]
  && forallb (str_or_absent data) ["sub"; "jti"].

(** A time claim of a kind [int()] takes or refuses with [ValueError] (or
    no claim at all): an integer, a boolean, a string, a float that is not
    infinite. *)
Definition int_typed (claim : option pyval) : bool :=
  match claim with
  | None | Some (PInt _) | Some (PBool _) | Some (PStr _) => true
  | Some (PFloat (S754_infinity _)) => false
  | Some (PFloat _) => true
  | Some _ => false
  end.

(** What the default validation asks of the claims besides "exp": "iat"
    absent or a value [int()] converts; "nbf" absent or a value [int()]
    converts to a second not after [now]; no "aud" and no "at_hash"; "sub"
    and "jti" absent or strings. *)
Definition validated {backend : Jose.Backend} (now : Z)
    (claims : gmap string pyval) : bool :=
  match claims !! "iat" with
  | None => true
  | Some v => match Jose.int_claim v with Ok _ => true | Raise _ => false end
  end
  && match claims !! "nbf" with
     | None => true
     | Some v =>
         match Jose.int_claim v with Ok nbf => nbf <=? now | Raise _ => false end
     end
  && forallb (absent claims) ["aud"; "at_hash"]
  && forallb (str_or_absent claims) ["sub"; "jti"].

(** What [jwt.encode] signs for the claims [data] once the expiry [expire]
    has been put in: a [datetime] under "iat" or "nbf" is turned into whole
    seconds like the expiry. *)
Definition signed_claims (data : gmap string pyval) (expire : Z)
  : gmap string pyval :=
  <["exp" := PInt (Datetime.timestamp expire)]>
    (alter Jose.to_timestamp "iat" (alter Jose.to_timestamp "nbf" data)).

Section Codec.
Context {backend : Jose.Backend} {backend_laws : Jose.BackendLaws}.
Variable settings : Settings.

Lemma json_ok_insert (data : gmap string pyval) (name : string) (v : pyval) :
  json_ok data = true -> json_serialisable v = true ->
  json_ok (<[name := v]> data) = true.
Proof using Type.
  unfold json_ok. rewrite !bool_decide_eq_true. intros Hdata Hv.
  apply map_Forall_insert_2; assumption.
Qed.

Lemma json_ok_lookup (data : gmap string pyval) (name : string) (v : pyval) :
  json_ok data = true -> data !! name = Some v -> json_serialisable v = true.
Proof using Type.
  unfold json_ok. rewrite bool_decide_eq_true. intros Hdata Hv.
  exact (Hdata name v Hv).
Qed.

Lemma json_ok_delete (data : gmap string pyval) (name : string) :
  json_ok data = true -> json_ok (delete name data) = true.
Proof using Type.
  unfold json_ok. rewrite !bool_decide_eq_true. apply map_Forall_delete.
Qed.

Lemma absent_lookup (data : gmap string pyval) (name : string) :
  absent data name = true -> data !! name = None.
Proof using Type. unfold absent. destruct (data !! name); [discriminate | reflexivity]. Qed.

(** What [jwt.encode] signs once the expiry has been put in. *)
Lemma time_claims_signed (data : gmap string pyval) (expire : Z) :
  foldr (fun time_claim c => alter Jose.to_timestamp time_claim c)
        (<["exp" := PDatetime expire]> data) ["exp"; "iat"; "nbf"]
  = signed_claims data expire.
Proof using Type.
  unfold signed_claims. cbn [foldr].
  rewrite !alter_insert_ne by done. rewrite alter_insert_eq. reflexivity.
Qed.

Lemma signed_claims_plain (data : gmap string pyval) (expire : Z) :
  data !! "iat" = None -> data !! "nbf" = None ->
  signed_claims data expire = <["exp" := PInt (Datetime.timestamp expire)]> data.
Proof using Type.
  intros Hiat Hnbf. unfold signed_claims.
  rewrite (alter_id' _ _ "nbf") by done.
  rewrite (alter_id' _ _ "iat") by done. reflexivity.
Qed.

Lemma time_claims_converted (data : gmap string pyval) (expire : Z) :
  data !! "iat" = None -> data !! "nbf" = None ->
  foldr (fun time_claim c => alter Jose.to_timestamp time_claim c)
        (<["exp" := PDatetime expire]> data) ["exp"; "iat"; "nbf"]
  = <["exp" := PInt (Datetime.timestamp expire)]> data.
Proof using Type.
  intros Hiat Hnbf. rewrite time_claims_signed. apply signed_claims_plain; assumption.
Qed.

(** [create_access_token] with an explicit non-zero lifetime. *)
Lemma create_access_token_issues (clock ttl : Z) (data : gmap string pyval) :
  ttl <> 0 ->
  Datetime.in_range (clock + ttl) = true ->
  Jose.can_sign (SECRET_KEY settings) (ALGORITHM settings) = true ->
  json_ok data = true ->
  data !! "iat" = None -> data !! "nbf" = None ->
  create_access_token settings clock data (Some ttl)
  = Ok (Jose.jws_sign (<["exp" := PInt (Datetime.timestamp (clock + ttl))]> data)
                      (SECRET_KEY settings) (ALGORITHM settings)).
Proof using Type.
  intros Httl Hrange Hsign Hjson Hiat Hnbf.
  unfold create_access_token, Datetime.add. unfold_monad.
  apply Z.eqb_neq in Httl. rewrite Httl, Hrange.
  unfold Jose.encode. rewrite time_claims_converted by assumption.
  apply andb_true_iff in Hsign as [-> ->].
  rewrite json_ok_insert by done. reflexivity.
Qed.

(** Conversely, a token that was issued tells how it was made. *)
Lemma create_access_token_signed (clock ttl : Z) (data : gmap string pyval)
    (token : string) :
  ttl <> 0 ->
  create_access_token settings clock data (Some ttl) = Ok token ->
  Jose.can_sign (SECRET_KEY settings) (ALGORITHM settings) = true
  /\ json_ok (signed_claims data (clock + ttl)) = true
  /\ token = Jose.jws_sign (signed_claims data (clock + ttl))
                           (SECRET_KEY settings) (ALGORITHM settings).
Proof using Type.
  intros Httl.
  unfold create_access_token, Datetime.add. unfold_monad.
  apply Z.eqb_neq in Httl. rewrite Httl.
  destruct (Datetime.in_range (clock + ttl)); [ | discriminate].
  unfold Jose.encode, Jose.can_sign. rewrite time_claims_signed.
  destruct (Jose.alg_supported _); [ | discriminate].
  destruct (json_ok _); [ | discriminate].
  destruct (Jose.key_usable _ _); [ | discriminate]. cbn. intros [= <-]. done.
Qed.

Lemma create_access_token_issued (clock ttl : Z) (data : gmap string pyval)
    (token : string) :
  ttl <> 0 ->
  data !! "iat" = None -> data !! "nbf" = None ->
  create_access_token settings clock data (Some ttl) = Ok token ->
  Jose.can_sign (SECRET_KEY settings) (ALGORITHM settings) = true
  /\ json_ok (<["exp" := PInt (Datetime.timestamp (clock + ttl))]> data) = true
  /\ token = Jose.jws_sign (<["exp" := PInt (Datetime.timestamp (clock + ttl))]> data)
                           (SECRET_KEY settings) (ALGORITHM settings).
Proof using Type.
  intros Httl Hiat Hnbf Hissued.
  rewrite <- (signed_claims_plain data (clock + ttl)) by assumption.
  apply create_access_token_signed; assumption.
Qed.

(** [jws.verify] of a freshly signed claims object returns a payload that
    reads back as the claims. *)
Lemma verify_signed (claims : gmap string pyval) :
  Jose.can_sign (SECRET_KEY settings) (ALGORITHM settings) = true ->
  json_ok claims = true ->
  exists payload,
    Jose.verify (Jose.jws_sign claims (SECRET_KEY settings) (ALGORITHM settings))
                (SECRET_KEY settings) [ALGORITHM settings] = Ok payload
    /\ Jose.json_loads payload = Ok (JObject claims).
Proof using backend_laws.
  intros Hsign Hjson.
  destruct (Jose.load_sign claims (SECRET_KEY settings) (ALGORITHM settings)
              Hsign Hjson)
    as (header & payload & signing_input & signature & Hload & Halg & Hclaims & Hsig).
  exists payload. split; [ | exact Hclaims].
  unfold Jose.verify, Jose.verify_signature. unfold_monad.
  rewrite Hload, Halg, Hsig.
  assert (Hnamed : String.eqb (ALGORITHM settings) "" = false).
  { apply String.eqb_neq. intros Hempty.
    apply andb_true_iff in Hsign as [Hsupported _].
    rewrite Hempty, Jose.alg_supported_named in Hsupported. discriminate. }
  rewrite Hnamed.
  rewrite bool_decide_true by apply list_elem_of_here. reflexivity.
Qed.

(** [jwt.decode] of a freshly signed claims object comes down to the
    validation of its claims. *)
Lemma decode_signed (clock : Z) (claims : gmap string pyval) :
  Jose.can_sign (SECRET_KEY settings) (ALGORITHM settings) = true ->
  json_ok claims = true ->
  Jose.decode clock (Jose.jws_sign claims (SECRET_KEY settings) (ALGORITHM settings))
              (SECRET_KEY settings) [ALGORITHM settings]
  = (_ ← Jose.validate_claims (Datetime.timestamp clock) claims; mret claims).
Proof using backend_laws.
  intros Hsign Hjson. unfold Jose.decode.
  destruct (verify_signed claims Hsign Hjson) as (payload & -> & ->).
  reflexivity.
Qed.

Lemma plain_claims_spec (data : gmap string pyval) :
  plain_claims data = true ->
  json_ok data = true
  /\ (data !! "iat" = None /\ data !! "nbf" = None
      /\ data !! "aud" = None /\ data !! "at_hash" = None)
  /\ str_or_absent data "sub" = true /\ str_or_absent data "jti" = true.
Proof using Type.
  unfold plain_claims. cbn [forallb].
  rewrite !andb_true_iff. intros [[Hjson (Hiat & Hnbf & Haud & Hat & _)] (Hsub & Hjti & _)].
  auto 10 using absent_lookup.
Qed.

Lemma validate_str_ok (name : string) (claims : gmap string pyval) :
  str_or_absent claims name = true -> Jose.validate_str name claims = Ok tt.
Proof using Type.
  unfold str_or_absent, Jose.validate_str.
  destruct (claims !! name) as [[ | | | | | | | ] | ]; (reflexivity || discriminate).
Qed.

Lemma validate_str_refused (name : string) (claims : gmap string pyval) :
  str_or_absent claims name = false ->
  Jose.validate_str name claims = Raise JWTClaimsError.
Proof using Type.
  unfold str_or_absent, Jose.validate_str.
  destruct (claims !! name) as [[ | | | | | | | ] | ]; (reflexivity || discriminate).
Qed.

(** What [int()] raises inside a claim validator. *)
Lemma int_claim_raises (v : pyval) (e : exn) :
  Jose.int_claim v = Raise e ->
  e = JWTClaimsError \/ e = TypeError \/ e = OverflowError.
Proof using Type.
  destruct v as [ | b | n | f | s | l | items | us]; cbn;
    try discriminate; try (intros [= <-]; auto).
  - destruct f; cbn; try discriminate; intros [= <-]; auto.
  - destruct (Jose.int_of_str s); [discriminate | intros [= <-]; auto].
Qed.

(** The claims validation, for claims whose expiry has not passed: it
    lets through exactly the [validated] claims, and otherwise raises a
    [JWTError], or the [TypeError] or [OverflowError] of [int()]. *)
Lemma validate_claims_validated (now exp : Z) (data : gmap string pyval) :
  now <= exp ->
  if validated now data
  then Jose.validate_claims now (<["exp" := PInt exp]> data) = Ok tt
  else exists e,
         Jose.validate_claims now (<["exp" := PInt exp]> data) = Raise e
         /\ (isinstance_JWTError e = true \/ e = TypeError \/ e = OverflowError).
Proof using Type.
  intros Hexp.
  unfold validated, Jose.validate_claims, Jose.validate_iat, Jose.validate_nbf,
    Jose.validate_exp, Jose.validate_aud, Jose.validate_at_hash, absent.
  cbn [forallb]. unfold_monad.
  rewrite lookup_insert_eq. rewrite !lookup_insert_ne by done.
  assert (Hstr : forall name, name <> "exp" ->
            str_or_absent (<["exp" := PInt exp]> data) name = str_or_absent data name)
    by (intros name Hname; unfold str_or_absent; rewrite lookup_insert_ne by done;
        reflexivity).
  cbn [Jose.int_claim]. assert ((exp <? now) = false) as -> by lia.
  destruct (data !! "iat") as [iat | ];
    [destruct (Jose.int_claim iat) as [n | e] eqn:Hiat | ]; cbn [andb];
    try (exists e; split; [reflexivity | ];
         destruct (int_claim_raises _ _ Hiat) as [-> | [-> | ->]]; auto).
  all: destruct (data !! "nbf") as [nbf | ];
    [destruct (Jose.int_claim nbf) as [m | e] eqn:Hnbf | ]; cbn [andb];
    try (exists e; split; [reflexivity | ];
         destruct (int_claim_raises _ _ Hnbf) as [-> | [-> | ->]]; auto).
  all: try (destruct (Z.leb_spec m now) as [Hle | Hgt];
            [assert ((now <? m) = false) as -> by lia
            | assert ((now <? m) = true) as -> by lia;
              exists JWTClaimsError; auto]; cbn [andb]).
  all: destruct (data !! "aud"); cbn [andb]; [exists JWTClaimsError; auto | ].
  all: destruct (str_or_absent data "sub") eqn:Hsub;
    [rewrite (validate_str_ok "sub") by (rewrite Hstr by done; exact Hsub)
    | rewrite (validate_str_refused "sub") by (rewrite Hstr by done; exact Hsub);
      rewrite ?andb_false_r; exists JWTClaimsError; auto].
  all: destruct (str_or_absent data "jti") eqn:Hjti;
    [rewrite (validate_str_ok "jti") by (rewrite Hstr by done; exact Hjti)
    | rewrite (validate_str_refused "jti") by (rewrite Hstr by done; exact Hjti);
      rewrite ?andb_false_r; exists JWTClaimsError; auto].
  all: destruct (data !! "at_hash"); cbn [andb];
    [exists JWTClaimsError; auto | reflexivity].
Qed.

(** Plain claims with an integer expiry not yet passed are valid. *)
Lemma validate_plain_claims (now exp : Z) (data : gmap string pyval) :
  plain_claims data = true -> now <= exp ->
  Jose.validate_claims now (<["exp" := PInt exp]> data) = Ok tt.
Proof using Type.
  intros (_ & (Hiat & Hnbf & Haud & Hat) & Hsub & Hjti)%plain_claims_spec Hexp.
  pose proof (validate_claims_validated now exp data Hexp) as Hvalid.
  unfold validated, absent in Hvalid. cbn [forallb] in Hvalid.
  rewrite Hiat, Hnbf, Haud, Hat, Hsub, Hjti in Hvalid. exact Hvalid.
Qed.

(** C2, as amended: take claims whose values besides "exp" are of the
    kinds [json.dumps] prints and [json.loads] reads back unchanged, and of
    a size the [json] module is sure to handle; a positive ttl whose expiry
    is a representable [datetime]; and a key and algorithm that can sign.  Then [create_access_token] issues a
    token.  When the claims are ones the default validation lets through
    ([validated]), decoding the token at the same clock reading returns the
    input claims with "exp" set to the expiry in whole seconds, and the
    returned "sub" is the input "sub".  When they are not, decoding it
    returns [None] or raises the [TypeError] or [OverflowError] of
    [int()]. *)
Theorem issue_then_decode_round_trips (clock ttl : Z) (data : gmap string pyval) :
  0 < ttl ->
  Datetime.in_range (clock + ttl) = true ->
  Jose.can_sign (SECRET_KEY settings) (ALGORITHM settings) = true ->
  json_ok (delete "exp" data) = true ->
  json_sized (delete "exp" data) = true ->
  exists token,
    create_access_token settings clock data (Some ttl) = Ok token
    /\ if validated (Datetime.timestamp clock) data
       then decode_access_token settings clock token
            = Ok (Some (<["exp" := PInt (Datetime.timestamp (clock + ttl))]> data))
            /\ (<["exp" := PInt (Datetime.timestamp (clock + ttl))]> data) !! "sub"
               = data !! "sub"
       else decode_access_token settings clock token = Ok None
            \/ exists e,
                 decode_access_token settings clock token = Raise e
                 /\ (e = TypeError \/ e = OverflowError).
Proof using backend_laws.
  intros Httl Hrange Hsign Hjson _.
  assert (Htime : forall name, name <> "exp" ->
            alter Jose.to_timestamp name data = data).
  { intros name Hname. apply alter_id. intros v Hv.
    assert (Hok : json_serialisable v = true)
      by (apply (json_ok_lookup _ name _ Hjson); rewrite lookup_delete_ne by done;
          exact Hv).
    destruct v; (reflexivity || discriminate). }
  assert (Hsigned : signed_claims data (clock + ttl)
                    = <["exp" := PInt (Datetime.timestamp (clock + ttl))]> data).
  { unfold signed_claims. rewrite !Htime by done. reflexivity. }
  assert (Hok : json_ok (<["exp" := PInt (Datetime.timestamp (clock + ttl))]> data)
                = true).
  { rewrite <- insert_delete_eq. apply json_ok_insert; done. }
  exists (Jose.jws_sign (<["exp" := PInt (Datetime.timestamp (clock + ttl))]> data)
            (SECRET_KEY settings) (ALGORITHM settings)).
  split.
  - unfold create_access_token, Datetime.add. unfold_monad.
    assert ((ttl =? 0) = false) as -> by lia. rewrite Hrange.
    unfold Jose.encode. rewrite time_claims_signed, Hsigned, Hok.
    apply andb_true_iff in Hsign as [-> ->]. reflexivity.
  - unfold decode_access_token. rewrite decode_signed by assumption.
    assert (Hexp : Datetime.timestamp clock <= Datetime.timestamp (clock + ttl))
      by (unfold Datetime.timestamp; apply Z.div_le_mono; lia).
    pose proof (validate_claims_validated _ _ data Hexp) as Hvalid.
    destruct (validated (Datetime.timestamp clock) data).
    + rewrite Hvalid. split; [reflexivity | rewrite lookup_insert_ne; done].
    + destruct Hvalid as (e & -> & [He | [-> | ->]]); cbn.
      * left. rewrite He. reflexivity.
      * right. exists TypeError. auto.
      * right. exists OverflowError. auto.
Qed.

(** The ways a token is refused, at clock reading [clock]. *)
Inductive rejected (clock : Z) (token : string) : Prop :=
  (* malformed structure: fewer than three dot-separated segments *)
  | rejected_segments :
      Jose.segments token = None ->
      rejected clock token
  (* malformed structure: the header segment is not base64url *)
  | rejected_header_padding (header_segment claims_segment crypto_segment
                             signing_input : string) :
      Jose.segments token
      = Some (header_segment, claims_segment, crypto_segment, signing_input) ->
      Jose.base64url_decode header_segment = None ->
      rejected clock token
  (* malformed structure: the header is not JSON *)
  | rejected_header_json (header_segment claims_segment crypto_segment
                          signing_input header_data : string) (e : exn) :
      Jose.segments token
      = Some (header_segment, claims_segment, crypto_segment, signing_input) ->
      Jose.base64url_decode header_segment = Some header_data ->
      Jose.json_loads header_data = Raise e ->
      isinstance_ValueError e = true ->
      rejected clock token
  (* malformed structure: the header is JSON and not an object *)
  | rejected_header_kind (header_segment claims_segment crypto_segment
                          signing_input header_data : string) (v : pyval) :
      Jose.segments token
      = Some (header_segment, claims_segment, crypto_segment, signing_input) ->
      Jose.base64url_decode header_segment = Some header_data ->
      Jose.json_loads header_data = Ok (JOther v) ->
      rejected clock token
  (* malformed structure: the header is read, and the claims or the
     signature segment is not base64url *)
  | rejected_padding (header_segment claims_segment crypto_segment
                      signing_input header_data : string)
                     (header : gmap string pyval) :
      Jose.segments token
      = Some (header_segment, claims_segment, crypto_segment, signing_input) ->
      Jose.base64url_decode header_segment = Some header_data ->
      Jose.json_loads header_data = Ok (JObject header) ->
      Jose.base64url_decode claims_segment = None
      \/ Jose.base64url_decode crypto_segment = None ->
      rejected clock token
  (* the header names no algorithm, or one that is not the configured one *)
  | rejected_algorithm (header : gmap string pyval)
                       (payload signing_input signature : string) :
      Jose.load token = Ok (header, payload, signing_input, signature) ->
      header !! "alg" <> Some (PStr (ALGORITHM settings)) ->
      rejected clock token
  (* signature mismatch: the configured key does not verify the signature *)
  | rejected_signature (header : gmap string pyval)
                       (payload signing_input signature : string) :
      Jose.load token = Ok (header, payload, signing_input, signature) ->
      Jose.sig_matches_keys (SECRET_KEY settings) signing_input signature
                            (ALGORITHM settings) = Ok false ->
      rejected clock token
  (* the verified payload is not JSON *)
  | rejected_payload_json (payload : string) (e : exn) :
      Jose.verify token (SECRET_KEY settings) [ALGORITHM settings] = Ok payload ->
      Jose.json_loads payload = Raise e ->
      isinstance_ValueError e = true ->
      rejected clock token
  (* the verified payload is JSON and not an object *)
  | rejected_payload_kind (payload : string) (v : pyval) :
      Jose.verify token (SECRET_KEY settings) [ALGORITHM settings] = Ok payload ->
      Jose.json_loads payload = Ok (JOther v) ->
      rejected clock token
  (* the expiry, in whole seconds, is before the clock's *)
  | rejected_expired (payload : string) (claims : gmap string pyval) (v : pyval) (exp : Z) :
      Jose.verify token (SECRET_KEY settings) [ALGORITHM settings] = Ok payload ->
      Jose.json_loads payload = Ok (JObject claims) ->
      int_typed (claims !! "iat") = true ->
      int_typed (claims !! "nbf") = true ->
      claims !! "exp" = Some v ->
      Jose.int_claim v = Ok exp ->
      exp < Datetime.timestamp clock ->
      rejected clock token
  (* issued earlier with a lifetime of minus one second or less *)
  | rejected_stale (issued_at ttl : Z) (data : gmap string pyval) :
      issued_at <= clock ->
      ttl <= -1000000 ->
      int_typed (Jose.to_timestamp <$> data !! "iat") = true ->
      int_typed (Jose.to_timestamp <$> data !! "nbf") = true ->
      create_access_token settings issued_at data (Some ttl) = Ok token ->
      rejected clock token.

Lemma int_claim_typed (claim : pyval) :
  int_typed (Some claim) = true ->
  (exists n, Jose.int_claim claim = Ok n) \/ Jose.int_claim claim = Raise JWTClaimsError.
Proof using Type.
  destruct claim as [ | b | n | f | s | l | items | us]; cbn;
    try discriminate; eauto.
  - destruct f; cbn; try discriminate; eauto.
  - destruct (Jose.int_of_str s); eauto.
Qed.

(** An expired claims object fails validation with a [JWTError]. *)
Lemma validate_claims_expired (now exp : Z) (claims : gmap string pyval) (v : pyval) :
  int_typed (claims !! "iat") = true ->
  int_typed (claims !! "nbf") = true ->
  claims !! "exp" = Some v ->
  Jose.int_claim v = Ok exp ->
  exp < now ->
  exists e, Jose.validate_claims now claims = Raise e /\ isinstance_JWTError e = true.
Proof using Type.
  intros Hiat Hnbf Hexp Hv Hlt.
  unfold Jose.validate_claims, Jose.validate_iat, Jose.validate_nbf, Jose.validate_exp.
  rewrite Hexp. unfold_monad. rewrite Hv.
  assert ((exp <? now) = true) as -> by lia.
  destruct (claims !! "iat") as [iat | ].
  - destruct (int_claim_typed iat Hiat) as [[n ->] | ->]; [ | eauto].
    destruct (claims !! "nbf") as [nbf | ]; [ | eauto].
    destruct (int_claim_typed nbf Hnbf) as [[m ->] | ->]; [ | eauto].
    destruct (now <? m); eauto.
  - destruct (claims !! "nbf") as [nbf | ]; [ | eauto].
    destruct (int_claim_typed nbf Hnbf) as [[m ->] | ->]; [ | eauto].
    destruct (now <? m); eauto.
Qed.

(** C3, as amended: [decode_access_token] returns [None] and raises
    nothing for every token with a malformed structure (fewer than three
    dot-separated segments; a header segment that is not base64url; a
    header that is not JSON or not a JSON object; with the header read, a
    claims or signature segment that is not base64url), with a header
    "alg" other than the configured algorithm, with a signature the
    configured key does not verify, with a verified payload that is not a
    JSON object, with an expiry strictly before the verification time in
    whole seconds (its "iat" and "nbf" absent or of a kind [int()] takes),
    and for every token that [create_access_token] issued with a ttl of
    minus one second or less. *)
Theorem decode_access_token_rejected (clock : Z) (token : string) :
  rejected clock token -> decode_access_token settings clock token = Ok None.
Proof using backend_laws.
  intros [ Hsegments
         | header_segment claims_segment crypto_segment signing_input
             Hsegments Hheader
         | header_segment claims_segment crypto_segment signing_input header_data e
             Hsegments Hheader Hjson He
         | header_segment claims_segment crypto_segment signing_input header_data v
             Hsegments Hheader Hjson
         | header_segment claims_segment crypto_segment signing_input header_data
             header Hsegments Hheader Hjson Hpadding
         | header payload signing_input signature Hload Halg
         | header payload signing_input signature Hload Hsig
         | payload e Hjws Hjson He
         | payload v Hjws Hjson
         | payload claims v exp Hjws Hload Hiat Hnbf Hexp Hv Hlt
         | issued_at ttl data Hclock Httl Hiat Hnbf Hissued];
    unfold decode_access_token.
  - unfold Jose.decode, Jose.verify, Jose.load. rewrite Hsegments. reflexivity.
  - unfold Jose.decode, Jose.verify, Jose.load. rewrite Hsegments, Hheader.
    reflexivity.
  - unfold Jose.decode, Jose.verify, Jose.load.
    rewrite Hsegments, Hheader, Hjson, He. reflexivity.
  - unfold Jose.decode, Jose.verify, Jose.load.
    rewrite Hsegments, Hheader, Hjson. reflexivity.
  - unfold Jose.decode, Jose.verify, Jose.load.
    rewrite Hsegments, Hheader, Hjson.
    destruct Hpadding as [-> | Hcrypto]; [reflexivity | ].
    destruct (Jose.base64url_decode claims_segment); [ | reflexivity].
    rewrite Hcrypto. reflexivity.
  - unfold Jose.decode, Jose.verify, Jose.verify_signature. rewrite Hload.
    unfold_monad.
    destruct (header !! "alg") as [[ | | | | alg | | | ] | ]; try reflexivity.
    destruct (String.eqb alg ""); [reflexivity | ].
    rewrite bool_decide_false; [reflexivity | ].
    intros ->%list_elem_of_singleton. apply Halg. reflexivity.
  - unfold Jose.decode, Jose.verify, Jose.verify_signature. rewrite Hload.
    unfold_monad.
    destruct (header !! "alg") as [[ | | | | alg | | | ] | ]; try reflexivity.
    destruct (String.eqb alg ""); [reflexivity | ].
    destruct (bool_decide (alg ∈ [ALGORITHM settings])) eqn:Hin; [ | reflexivity].
    apply bool_decide_eq_true, list_elem_of_singleton in Hin as ->.
    cbn [negb]. rewrite Hsig. reflexivity.
  - unfold Jose.decode. rewrite Hjws, Hjson, He. reflexivity.
  - unfold Jose.decode. rewrite Hjws, Hjson. reflexivity.
  - unfold Jose.decode. rewrite Hjws, Hload.
    destruct (validate_claims_expired _ _ _ _ Hiat Hnbf Hexp Hv Hlt) as (e & -> & He).
    cbn. rewrite He. reflexivity.
  - apply create_access_token_signed in Hissued as (Hsign & Hjson & ->); [ | lia].
    rewrite decode_signed by assumption.
    destruct (validate_claims_expired (Datetime.timestamp clock)
                (Datetime.timestamp (issued_at + ttl))
                (signed_claims data (issued_at + ttl))
                (PInt (Datetime.timestamp (issued_at + ttl)))) as (e & -> & He).
    + unfold signed_claims. rewrite lookup_insert_ne by done.
      rewrite lookup_alter_eq, lookup_alter_ne by done. exact Hiat.
    + unfold signed_claims. rewrite lookup_insert_ne by done.
      rewrite lookup_alter_ne, lookup_alter_eq by done. exact Hnbf.
    + apply lookup_insert_eq.
    + reflexivity.
    + unfold Datetime.timestamp.
      assert ((issued_at + ttl) / 1000000 <= (issued_at - 1000000) / 1000000)
        by (apply Z.div_le_mono; lia).
      assert ((issued_at - 1000000) / 1000000 = issued_at / 1000000 - 1)
        by (replace (issued_at - 1000000) with (issued_at + (-1) * 1000000) by lia;
            rewrite Z.div_add by lia; lia).
      assert (issued_at / 1000000 <= clock / 1000000) by (apply Z.div_le_mono; lia).
      lia.
    + cbn. rewrite He. reflexivity.
Qed.

End Codec.

(** C2 at the claims [login] issues with an integer "iat" added, half an
    hour of lifetime; and at claims whose "iat" is [None]. *)
Lemma issue_then_decode_round_trips_witness :
  (exists token,
     create_access_token (backend := Ref.jose) Ref.settings 1700000000500000
       {["sub" := PStr "bob@x.com"; "iat" := PInt 1700000000]} (Some 1800000000)
     = Ok token
     /\ decode_access_token (backend := Ref.jose) Ref.settings 1700000000500000 token
        = Ok (Some (<["exp" := PInt 1700001800]>
                      {["sub" := PStr "bob@x.com"; "iat" := PInt 1700000000]}))
     /\ (<["exp" := PInt 1700001800]>
           ({["sub" := PStr "bob@x.com"; "iat" := PInt 1700000000]}
            : gmap string pyval)) !! "sub"
        = Some (PStr "bob@x.com"))
  /\ (exists token,
        create_access_token (backend := Ref.jose) Ref.settings 1700000000500000
          {["sub" := PStr "bob@x.com"; "iat" := PNone]} (Some 1800000000)
        = Ok token
        /\ (decode_access_token (backend := Ref.jose) Ref.settings
              1700000000500000 token = Ok None
            \/ exists e,
                 decode_access_token (backend := Ref.jose) Ref.settings
                   1700000000500000 token = Raise e
                 /\ (e = TypeError \/ e = OverflowError))).
Proof.
  split.
  - destruct (issue_then_decode_round_trips (backend_laws := Ref.jose_laws)
                Ref.settings 1700000000500000 1800000000
                {["sub" := PStr "bob@x.com"; "iat" := PInt 1700000000]})
      as (token & Hissued & Hdecoded);
      [lia | reflexivity | reflexivity | vm_compute; reflexivity
      | vm_compute; reflexivity | ].
    exists token. split; [exact Hissued | exact Hdecoded].
  - destruct (issue_then_decode_round_trips (backend_laws := Ref.jose_laws)
                Ref.settings 1700000000500000 1800000000
                {["sub" := PStr "bob@x.com"; "iat" := PNone]})
      as (token & Hissued & Hdecoded);
      [lia | reflexivity | reflexivity | vm_compute; reflexivity
      | vm_compute; reflexivity | ].
    exists token. split; [exact Hissued | exact Hdecoded].
Defined.

(** C2 as first stated fails: a claims map that names an audience is
    issued, and then refused by [jwt.decode], which is given no audience. *)
Lemma issue_then_decode_aud_counterexample :
  (create_access_token (backend := Ref.jose) Ref.settings 1700000000500000
     {["sub" := PStr "bob@x.com"; "aud" := PStr "api"]} (Some 1800000000)
   ≫= decode_access_token (backend := Ref.jose) Ref.settings 1700000000500000)
  = Ok None.
Proof. vm_compute. reflexivity. Qed.

(** C3 at a string without dots, and at a token signed with another key. *)
Lemma decode_access_token_rejected_witness :
  decode_access_token (backend := Ref.jose) Ref.settings 1700000000500000
    "invalid_token_string" = Ok None
  /\ decode_access_token (backend := Ref.jose) Ref.settings 1700000000500000
       (Ref.jws_sign {["sub" := PStr "bob@x.com"]} "another-key" "HS256")
     = Ok None.
Proof.
  split.
  - apply (decode_access_token_rejected (backend_laws := Ref.jose_laws)).
    apply rejected_segments. reflexivity.
  - apply (decode_access_token_rejected (backend_laws := Ref.jose_laws)).
    apply (rejected_signature _ _ _ (Ref.header "HS256")
             (Ref.claims_segment {["sub" := PStr "bob@x.com"]})
             (Ref.signing_input {["sub" := PStr "bob@x.com"]} "HS256")
             (Ref.mac "another-key"
                (Ref.signing_input {["sub" := PStr "bob@x.com"]} "HS256")));
      vm_compute; reflexivity.
Defined.

(** C3 as first stated fails: a token issued with a ttl of minus 0.2 s at
    half past the second expires at that very second, which is not before
    the verification time in whole seconds; it still decodes. *)
Lemma decode_access_token_same_second_counterexample :
  (create_access_token (backend := Ref.jose) Ref.settings 1700000000500000
     {["sub" := PStr "bob@x.com"]} (Some (-200000))
   ≫= decode_access_token (backend := Ref.jose) Ref.settings 1700000000500000)
  = Ok (Some (<["exp" := PInt 1700000000]> {["sub" := PStr "bob@x.com"]})).
Proof. vm_compute. reflexivity. Qed.

(** *** Authentication decisions *)

(** The signing configuration can issue a token at clock reading [clock]. *)
Definition can_issue {backend : Jose.Backend} (settings : Settings) (clock : Z)
  : Prop :=
  Jose.can_sign (SECRET_KEY settings) (ALGORITHM settings) = true
  /\ exists delta,
       Datetime.minutes (ACCESS_TOKEN_EXPIRE_MINUTES settings) = Ok delta
       /\ Datetime.in_range (clock + delta) = true.

Section Auth.
Context {py : PyStr} {handler : Passlib.Handler} {backend : Jose.Backend}.
Context {handler_laws : Passlib.HandlerLaws} {backend_laws : Jose.BackendLaws}.
Variable settings : Settings.



(** C6: when both the email and the username of a registration are taken,
    [register] answers with the email conflict, and writes nothing. *)
Theorem register_reports_email_conflict_first (salt : string)
    (user_data : UserCreate.t) (db : Session) (by_email by_username : User.t) :
  fst (get_user_by_email (UserCreate.email user_data) db) = Ok (Some by_email) ->
  fst (get_user_by_username (UserCreate.username user_data) db) = Ok (Some by_username) ->
  register salt user_data db
  = (Raise (HTTPException 409 "Email already registered" []), db).
Proof using Type.
  unfold register, register_checks, get_user_by_email, get_user_by_username,
    query_first. unfold_monad. cbn.
  intros [= ->] _. reflexivity.
Qed.

(** C8: a token that verifies but whose subject has no record is answered
    with the 401 credentials exception. *)
Theorem get_current_user_unknown_subject (clock : Z) (token : string)
    (db : Session) (payload : gmap string pyval) (email : string) :
  decode_access_token settings clock token = Ok (Some payload) ->
  payload !! "sub" = Some (PStr email) ->
  fst (get_user_by_email email db) = Ok None ->
  get_current_user settings clock token db
  = (Raise (HTTPException 401 "Could not validate credentials"
                          [("WWW-Authenticate", "Bearer")]), db).
Proof using Type.
  unfold get_current_user, get_user_by_email, query_first. unfold_monad. cbn.
  intros -> -> [= Hfind]. cbn. rewrite Hfind. reflexivity.
Qed.

(** C10: a token that verifies but carries no "sub" (or a null one) is
    answered with the very exception an invalid token gets. *)
Theorem get_current_user_missing_subject (clock : Z) (token : string)
    (db : Session) (payload : gmap string pyval) :
  decode_access_token settings clock token = Ok (Some payload) ->
  payload !! "sub" = None \/ payload !! "sub" = Some PNone ->
  get_current_user settings clock token db
  = (Raise (HTTPException 401 "Could not validate credentials"
                          [("WWW-Authenticate", "Bearer")]), db)
  /\ forall invalid,
       decode_access_token settings clock invalid = Ok None ->
       get_current_user settings clock invalid db
       = get_current_user settings clock token db.
Proof using Type.
  unfold get_current_user. unfold_monad. cbn.
  intros -> Hsub. split.
  - destruct Hsub as [-> | ->]; reflexivity.
  - intros invalid ->. destruct Hsub as [-> | ->]; reflexivity.
Qed.

(** The store's side of a write. *)

Lemma find_snoc {A} (p : A -> bool) (l : list A) (x : A) :
  Forall (fun r => p r = false) l ->
  List.find p (l ++ [x]) = if p x then Some x else None.
Proof using Type.
  induction 1 as [ | r l Hr _ IH]; cbn; [reflexivity | ]. rewrite Hr. exact IH.
Qed.

Lemma violates_free (u : User.t) (table : list User.t) :
  Forall (fun r => User.email r <> User.email u
                   /\ User.username r <> User.username u) table ->
  violates u table = false.
Proof using Type.
  induction 1 as [ | r l [He Hu] _ IH]; cbn; [reflexivity | ].
  apply String.eqb_neq in He, Hu. rewrite He, Hu. exact IH.
Qed.

Lemma violates_taken (u r : User.t) (table : list User.t) :
  r ∈ table ->
  User.email r = User.email u \/ User.username r = User.username u ->
  violates u table = true.
Proof using Type.
  intros Hin Hsame. unfold violates. apply existsb_exists.
  exists r. split; [apply list_elem_of_In; exact Hin | ].
  apply orb_true_iff. destruct Hsame as [E | E]; [left | right];
    apply String.eqb_eq; exact E.
Qed.

(** [create_user] on a fresh session, identity and username free. *)
Lemma create_user_fresh (salt username email password : string) (db : Session) :
  new db = [] ->
  Passlib.secret_accepted password = true ->
  Forall (fun r => User.email r <> lower email /\ User.username r <> username)
         (rows db) ->
  exists hashed,
    verify_password password hashed = Ok true
    /\ create_user salt username email password db
       = (Ok (User.mk (Some (fresh_id (rows db))) username (lower email) hashed true),
          mkSession
            (rows db ++ [User.mk (Some (fresh_id (rows db))) username (lower email)
                                 hashed true])
            []).
Proof using handler_laws.
  intros Hnew Hsecret Hfree.
  destruct (hash_then_verify salt password Hsecret)
    as (hashed & Hhash & Hverify).
  exists hashed. split; [exact Hverify | ].
  unfold create_user, get_password_hash, add, commit, refresh. unfold_monad.
  rewrite Hhash, Hnew. cbn -[violates fresh_id].
  rewrite violates_free by exact Hfree. unfold insert. cbn -[fresh_id].
  rewrite find_snoc.
  - cbn. rewrite String.eqb_refl. reflexivity.
  - eapply Forall_impl; [exact Hfree | ].
    intros r [He _]. apply String.eqb_neq. exact He.
Qed.

(** [create_user] on a fresh session when the store refuses the row. *)
Lemma create_user_refused (salt username email password : string) (db : Session)
    (taken : User.t) :
  new db = [] ->
  Passlib.secret_accepted password = true ->
  taken ∈ rows db ->
  User.email taken = lower email \/ User.username taken = username ->
  exists pending,
    create_user salt username email password db
    = (Raise IntegrityError, mkSession (rows db) [pending]).
Proof using handler_laws.
  intros Hnew Hsecret Hin Hsame.
  destruct (hash_then_verify salt password Hsecret)
    as (hashed & Hhash & _).
  exists (User.mk None username (lower email) hashed true).
  unfold create_user, get_password_hash, add, commit. unfold_monad.
  rewrite Hhash, Hnew. cbn -[violates].
  rewrite (violates_taken _ taken) by assumption. reflexivity.
Qed.

Lemma register_checks_reads (user_data : UserCreate.t) (db : Session) :
  snd (register_checks user_data db) = db.
Proof using Type.
  unfold register_checks, get_user_by_email, get_user_by_username, query_first.
  unfold_monad. cbn.
  destruct (List.find _ _); [reflexivity | ]. destruct (List.find _ _); reflexivity.
Qed.

(** C9: when the checks of [register] pass and another client then commits
    a row with the same email or username, the write is refused by the
    store, [register] rolls the session back and raises 409 "User already
    exists": the table is what the other client left, with no row of this
    registration, and nothing is pending. *)
Theorem register_race_surfaces_conflict (other : list User.t -> list User.t)
    (salt : string) (user_data : UserCreate.t) (db : Session) (taken : User.t) :
  new db = [] ->
  fst (register_checks user_data db) = Ok tt ->
  Passlib.secret_accepted (UserCreate.password user_data) = true ->
  taken ∈ other (rows db) ->
  User.email taken = lower (UserCreate.email user_data)
  \/ User.username taken = UserCreate.username user_data ->
  register_racing other salt user_data db
  = (Raise (HTTPException 409 "User already exists" []),
     mkSession (other (rows db)) []).
Proof using handler_laws.
  intros Hnew Hchecks Hsecret Hin Hsame.
  unfold register_racing. unfold_monad.
  pose proof (register_checks_reads user_data db) as Hreads.
  destruct (register_checks user_data db) as [[[] | e] db0]; cbn in *;
    [subst db0 | discriminate].
  unfold concurrently, register_create, try_except. rewrite Hnew.
  destruct (create_user_refused salt (UserCreate.username user_data)
              (UserCreate.email user_data) (UserCreate.password user_data)
              (mkSession (other (rows db)) []) taken) as (pending & ->);
    try assumption; reflexivity.
Qed.

(** Token issue as [login] calls it. *)
Lemma create_access_token_for_login (clock delta : Z) (email : string) :
  Jose.can_sign (SECRET_KEY settings) (ALGORITHM settings) = true ->
  Datetime.minutes (ACCESS_TOKEN_EXPIRE_MINUTES settings) = Ok delta ->
  Datetime.in_range (clock + delta) = true ->
  create_access_token settings clock {["sub" := PStr email]} (Some delta)
  = Ok (Jose.jws_sign (<["exp" := PInt (Datetime.timestamp (clock + delta))]>
                         {["sub" := PStr email]})
                      (SECRET_KEY settings) (ALGORITHM settings)).
Proof using Type.
  intros Hsign Hminutes Hrange.
  assert (Hexpire :
    match (if delta =? 0
           then (d ← Datetime.minutes (ACCESS_TOKEN_EXPIRE_MINUTES settings);
                 Datetime.add clock d)
           else Datetime.add clock delta) with
    | Ok expire => expire = clock + delta
    | Raise _ => False
    end).
  { unfold Datetime.add. unfold_monad. rewrite Hminutes, Hrange.
    destruct (delta =? 0); reflexivity. }
  unfold create_access_token. unfold_monad.
  destruct (if delta =? 0 then _ else _) as [expire | e]; [subst expire | contradiction].
  unfold Jose.encode.
  rewrite time_claims_converted by (apply lookup_singleton_ne; done).
  apply andb_true_iff in Hsign as [-> ->].
  rewrite json_ok_insert; [reflexivity | | reflexivity].
  unfold json_ok. apply bool_decide_eq_true. apply map_Forall_singleton. reflexivity.
Qed.

(** C7: [create_user] on a fresh session, for an identity and a username
    that are free and a password bcrypt accepts, stores the lower-cased
    email; every lookup by a case variant of the email then finds that
    record, and a login with a case variant and the same password returns a
    bearer token whenever the configuration can issue one. *)
Theorem identity_is_case_insensitive (salt username email password : string)
    (db : Session) :
  new db = [] ->
  Passlib.secret_accepted password = true ->
  Forall (fun r => User.email r <> lower email /\ User.username r <> username)
         (rows db) ->
  exists user db',
    create_user salt username email password db = (Ok user, db')
    /\ User.email user = lower email
    /\ user ∈ rows db'
    /\ forall email', case_variant email email' ->
         get_user_by_email email' db' = (Ok (Some user), db')
         /\ forall clock, can_issue settings clock ->
              exists token,
                login settings clock (UserLogin.mk email' password) db'
                = (Ok (Token.mk token "bearer"), db').
Proof using handler_laws.
  intros Hnew Hsecret Hfree.
  destruct (create_user_fresh salt username email password db Hnew Hsecret Hfree)
    as (hashed & Hverify & Hcreate).
  set (user := User.mk (Some (fresh_id (rows db))) username (lower email)
                       hashed true) in *.
  set (db' := mkSession (rows db ++ [user]) []) in *.
  exists user, db'. split; [exact Hcreate | ].
  split; [reflexivity | ].
  split; [apply elem_of_app; right; apply list_elem_of_here | ].
  intros email' Hvariant.
  assert (Hfind : get_user_by_email email' db' = (Ok (Some user), db')).
  { unfold get_user_by_email, query_first. cbn. rewrite Hvariant, find_snoc.
    - cbn. rewrite String.eqb_refl. reflexivity.
    - eapply Forall_impl; [exact Hfree | ].
      intros r [He _]. apply String.eqb_neq. exact He. }
  split; [exact Hfind | ].
  intros clock (Hsign & delta & Hminutes & Hrange).
  pose proof (create_access_token_for_login clock delta (lower email)
                Hsign Hminutes Hrange) as Htoken.
  eexists. unfold login. unfold_monad.
  cbn [UserLogin.email UserLogin.password]. rewrite Hfind.
  cbn [User.password_hash User.email user]. rewrite Hverify.
  cbn [negb]. rewrite Hminutes, Htoken. reflexivity.
Qed.

End Auth.

(** *** Further properties of the handlers and the store *)

Section Store.
Context {py : PyStr} {handler : Passlib.Handler} {backend : Jose.Backend}.
Context {backend_laws : Jose.BackendLaws}.
Variable settings : Settings.

Lemma violates_false_inv (u r : User.t) (table : list User.t) :
  violates u table = false -> r ∈ table ->
  User.email r <> User.email u /\ User.username r <> User.username u.
Proof using Type.
  unfold violates. intros Hfree Hin.
  assert (Hr : String.eqb (User.email r) (User.email u)
               || String.eqb (User.username r) (User.username u) = false).
  { destruct (_ || _) eqn:E; [ | reflexivity].
    assert (existsb (fun r => String.eqb (User.email r) (User.email u)
                              || String.eqb (User.username r) (User.username u))
                    table = true) as Hex
      by (apply existsb_exists; exists r; split;
          [apply list_elem_of_In; exact Hin | exact E]).
    congruence. }
  apply orb_false_iff in Hr as [He Hu]. split; apply String.eqb_neq; assumption.
Qed.

(** X2: when only the username is taken, [register] answers 409
    "Username already taken" and writes nothing. *)
Theorem register_reports_username_conflict (salt : string)
    (user_data : UserCreate.t) (db : Session) (by_username : User.t) :
  fst (get_user_by_email (UserCreate.email user_data) db) = Ok None ->
  fst (get_user_by_username (UserCreate.username user_data) db) = Ok (Some by_username) ->
  register salt user_data db
  = (Raise (HTTPException 409 "Username already taken" []), db).
Proof using Type.
  unfold register, register_checks, get_user_by_email, get_user_by_username,
    query_first. unfold_monad. cbn.
  intros [= ->] [= ->]. reflexivity.
Qed.

(** X3: for a user whose stored email is in lower case, as [create_user]
    stores it, a successful [login] returns a bearer token that decodes, at
    the same clock reading, to the user's stored email as "sub"; presented
    to [get_current_user] it resolves to that user. *)
Theorem login_token_authenticates (clock delta : Z) (user_data : UserLogin.t)
    (db : Session) (user : User.t) :
  fst (get_user_by_email (UserLogin.email user_data) db) = Ok (Some user) ->
  lower (User.email user) = User.email user ->
  verify_password (UserLogin.password user_data) (User.password_hash user) = Ok true ->
  Jose.can_sign (SECRET_KEY settings) (ALGORITHM settings) = true ->
  Datetime.minutes (ACCESS_TOKEN_EXPIRE_MINUTES settings) = Ok delta ->
  Datetime.in_range (clock + delta) = true ->
  0 <= delta ->
  exists token,
    login settings clock user_data db = (Ok (Token.mk token "bearer"), db)
    /\ decode_access_token settings clock token
       = Ok (Some (<["exp" := PInt (Datetime.timestamp (clock + delta))]>
                     {["sub" := PStr (User.email user)]}))
    /\ get_current_user settings clock token db = (Ok user, db).
Proof using backend_laws.
  intros Hfind Hlower Hverify Hsign Hminutes Hrange Hdelta.
  pose proof (create_access_token_for_login settings clock delta (User.email user)
                Hsign Hminutes Hrange) as Htoken.
  assert (Hplain : plain_claims {["sub" := PStr (User.email user)]} = true).
  { unfold plain_claims, json_ok, absent, str_or_absent. cbn [forallb].
    rewrite bool_decide_true by (apply map_Forall_singleton; reflexivity).
    rewrite lookup_singleton_eq. rewrite !lookup_singleton_ne by done. reflexivity. }
  assert (Hdecode :
    decode_access_token settings clock
      (Jose.jws_sign (<["exp" := PInt (Datetime.timestamp (clock + delta))]>
                        {["sub" := PStr (User.email user)]})
                     (SECRET_KEY settings) (ALGORITHM settings))
    = Ok (Some (<["exp" := PInt (Datetime.timestamp (clock + delta))]>
                  {["sub" := PStr (User.email user)]}))).
  { unfold decode_access_token.
    rewrite decode_signed; [ | assumption | ].
    - rewrite validate_plain_claims; [reflexivity | assumption | ].
      unfold Datetime.timestamp. apply Z.div_le_mono; lia.
    - apply json_ok_insert; [ | reflexivity].
      unfold json_ok. apply bool_decide_eq_true, map_Forall_singleton. reflexivity. }
  assert (Hrow : List.find (fun u => String.eqb (User.email u)
                                        (lower (UserLogin.email user_data)))
                           (rows db) = Some user)
    by (revert Hfind; unfold get_user_by_email, query_first; cbn [fst];
        intros [= ->]; reflexivity).
  eexists. split; [ | split; [exact Hdecode | ]].
  - unfold login, get_user_by_email, query_first. unfold_monad.
    rewrite Hrow, Hverify. cbn [negb].
    rewrite Hminutes, Htoken. reflexivity.
  - unfold get_current_user. unfold_monad. rewrite Hdecode.
    rewrite lookup_insert_ne by done. rewrite lookup_singleton_eq.
    cbn [TokenData]. unfold get_user_by_email, query_first.
    rewrite Hlower.
    destruct (find_some _ _ Hrow) as [_ Hemail]. apply String.eqb_eq in Hemail.
    rewrite Hemail, Hrow. reflexivity.
Qed.

End Store.

(** *** The write path and the lookups *)

Section Registration.
Context {py : PyStr} {handler : Passlib.Handler} {handler_laws : Passlib.HandlerLaws}.

Lemma find_none_forall {A} (p : A -> bool) (l : list A) :
  List.find p l = None <-> Forall (fun r => p r = false) l.
Proof using Type.
  induction l as [ | x l IH]; cbn; [split; [constructor | reflexivity] | ].
  destruct (p x) eqn:Hx.
  - split; [discriminate | ]. intros Hall. inversion Hall; congruence.
  - rewrite IH. split; [intros; constructor; assumption | ].
    intros Hall. inversion Hall; assumption.
Qed.

Lemma find_snoc_other {A} (p : A -> bool) (l : list A) (x : A) :
  p x = false -> List.find p (l ++ [x]) = List.find p l.
Proof using Type.
  intros Hx. induction l as [ | y l IH]; cbn; [rewrite Hx; reflexivity | ].
  destruct (p y); [reflexivity | exact IH].
Qed.

(** The key [fresh_id] hands out is above every key in the table. *)
Lemma fresh_id_above (table : list User.t) (r : User.t) (i : Z) :
  r ∈ table -> User.id r = Some i -> i < fresh_id table.
Proof using Type.
  unfold fresh_id. induction table as [ | x table IH]; intros Hin Hid.
  - apply elem_of_nil in Hin. contradiction.
  - cbn [foldr]. apply elem_of_cons in Hin as [-> | Hin].
    + rewrite Hid. cbn. lia.
    + specialize (IH Hin Hid). lia.
Qed.

Lemma fresh_id_unused (table : list User.t) :
  Forall (fun r => bool_decide (User.id r = Some (fresh_id table)) = false) table.
Proof using Type.
  apply Forall_forall. intros r Hr. apply bool_decide_eq_false. intros Hid.
  pose proof (fresh_id_above table r _ Hr Hid). lia.
Qed.

Lemma free_checks_pass (user_data : UserCreate.t) (db : Session) :
  Forall (fun r => User.email r <> lower (UserCreate.email user_data)
                   /\ User.username r <> UserCreate.username user_data) (rows db) ->
  register_checks user_data db = (Ok tt, db).
Proof using Type.
  intros Hfree.
  unfold register_checks, get_user_by_email, get_user_by_username, query_first.
  unfold_monad.
  assert (List.find (fun u => String.eqb (User.email u)
                                (lower (UserCreate.email user_data))) (rows db)
          = None) as ->.
  { apply find_none_forall. eapply Forall_impl; [exact Hfree | ].
    intros r [He _]. apply String.eqb_neq. exact He. }
  assert (List.find (fun u => String.eqb (User.username u)
                                (UserCreate.username user_data)) (rows db)
          = None) as ->.
  { apply find_none_forall. eapply Forall_impl; [exact Hfree | ].
    intros r [_ Hu]. apply String.eqb_neq. exact Hu. }
  reflexivity.
Qed.

Lemma checks_pass_free (user_data : UserCreate.t) (db : Session) :
  fst (register_checks user_data db) = Ok tt ->
  Forall (fun r => User.email r <> lower (UserCreate.email user_data)
                   /\ User.username r <> UserCreate.username user_data) (rows db).
Proof using Type.
  unfold register_checks, get_user_by_email, get_user_by_username, query_first.
  unfold_monad. cbn [fst].
  destruct (List.find _ (rows db)) eqn:Hemail; [discriminate | ].
  destruct (List.find (fun u => String.eqb (User.username u) _) (rows db))
    eqn:Hname; [discriminate | ].
  intros _. apply find_none_forall in Hemail, Hname.
  apply Forall_forall. intros r Hr.
  rewrite Forall_forall in Hemail, Hname.
  split; apply String.eqb_neq; auto.
Qed.

(** X4: on a fresh session, for an email and a username that are free and a
    password bcrypt accepts, [register] returns the new user - lower-cased
    email, the username as given, active, the next primary key, a hash that
    verifies the password - appends exactly that row, and the three lookups
    (by email, by username, by id) each find it. *)
Theorem register_then_lookup (salt : string) (user_data : UserCreate.t)
    (db : Session) :
  new db = [] ->
  Passlib.secret_accepted (UserCreate.password user_data) = true ->
  Forall (fun r => User.email r <> lower (UserCreate.email user_data)
                   /\ User.username r <> UserCreate.username user_data) (rows db) ->
  exists user db',
    register salt user_data db = (Ok user, db')
    /\ db' = mkSession (rows db ++ [user]) []
    /\ User.email user = lower (UserCreate.email user_data)
    /\ User.username user = UserCreate.username user_data
    /\ User.is_active user = true
    /\ User.id user = Some (fresh_id (rows db))
    /\ verify_password (UserCreate.password user_data) (User.password_hash user)
       = Ok true
    /\ get_user_by_email (UserCreate.email user_data) db' = (Ok (Some user), db')
    /\ get_user_by_username (UserCreate.username user_data) db' = (Ok (Some user), db')
    /\ get_user_by_id (fresh_id (rows db)) db' = (Ok (Some user), db').
Proof using handler_laws.
  intros Hnew Hsecret Hfree.
  destruct (create_user_fresh salt (UserCreate.username user_data)
              (UserCreate.email user_data) (UserCreate.password user_data)
              db Hnew Hsecret Hfree) as (hashed & Hverify & Hcreate).
  set (user := User.mk (Some (fresh_id (rows db))) (UserCreate.username user_data)
                       (lower (UserCreate.email user_data)) hashed true) in *.
  exists user, (mkSession (rows db ++ [user]) []).
  split.
  { unfold register. unfold_monad. rewrite free_checks_pass by exact Hfree.
    unfold register_create, try_except. rewrite Hcreate. reflexivity. }
  repeat (split; [reflexivity || exact Hverify | ]).
  unfold get_user_by_email, get_user_by_username, get_user_by_id, query_first.
  cbn [rows]. repeat split.
  - rewrite find_snoc.
    + cbn. rewrite String.eqb_refl. reflexivity.
    + eapply Forall_impl; [exact Hfree | ].
      intros r [He _]. apply String.eqb_neq. exact He.
  - rewrite find_snoc.
    + cbn. rewrite String.eqb_refl. reflexivity.
    + eapply Forall_impl; [exact Hfree | ].
      intros r [_ Hu]. apply String.eqb_neq. exact Hu.
  - rewrite find_snoc by apply fresh_id_unused.
    cbn. rewrite bool_decide_true by reflexivity. reflexivity.
Qed.

Lemma hash_raises (salt secret : string) (e : exn) :
  Passlib.hash salt secret = Raise e ->
  e = PasswordSizeError \/ e = PasswordValueError.
Proof using Type.
  unfold Passlib.hash, Passlib.validate_secret, Passlib.digest. unfold_monad.
  destruct (Nat.ltb _ _); [intros [= <-]; left; reflexivity | ].
  destruct (Passlib.has_nul secret); [intros [= <-]; right; reflexivity | discriminate].
Qed.

Lemma register_checks_outcomes (user_data : UserCreate.t) (db : Session) :
  register_checks user_data db = (Ok tt, db)
  \/ register_checks user_data db
     = (Raise (HTTPException 409 "Email already registered" []), db)
  \/ register_checks user_data db
     = (Raise (HTTPException 409 "Username already taken" []), db).
Proof using Type.
  unfold register_checks, get_user_by_email, get_user_by_username, query_first.
  unfold_monad.
  destruct (List.find (fun u => String.eqb (User.email u) _) (rows db));
    [right; left; reflexivity | ].
  destruct (List.find (fun u => String.eqb (User.username u) _) (rows db));
    [right; right; reflexivity | left; reflexivity].
Qed.

Lemma violates_true_inv (u : User.t) (table : list User.t) :
  violates u table = true ->
  exists r, r ∈ table
            /\ (User.email r = User.email u \/ User.username r = User.username u).
Proof using Type.
  unfold violates. intros (r & Hr & Hsame)%existsb_exists.
  exists r. split; [apply list_elem_of_In; exact Hr | ].
  apply orb_true_iff in Hsame as [E | E]; [left | right]; apply String.eqb_eq; exact E.
Qed.

(** The write of [register] from a session with nothing pending. *)
Lemma register_create_outcomes (salt : string) (user_data : UserCreate.t)
    (table : list User.t) :
  (exists user,
     register_create salt user_data (mkSession table [])
     = (Ok user, mkSession (table ++ [user]) [])
     /\ User.email user = lower (UserCreate.email user_data)
     /\ User.username user = UserCreate.username user_data
     /\ User.id user = Some (fresh_id table))
  \/ (exists e,
        register_create salt user_data (mkSession table []) = (Raise e, mkSession table [])
        /\ (e = PasswordSizeError \/ e = PasswordValueError
            \/ (e = HTTPException 409 "User already exists" []
                /\ exists r, r ∈ table
                      /\ (User.email r = lower (UserCreate.email user_data)
                          \/ User.username r = UserCreate.username user_data)))).
Proof using Type.
  unfold register_create, try_except, create_user, add, commit, refresh, rollback.
  unfold_monad.
  destruct (get_password_hash salt (UserCreate.password user_data))
    as [hashed | e] eqn:Hhash; cbn -[violates fresh_id].
  - destruct (violates _ table) eqn:Hfree; cbn -[violates fresh_id].
    + right. eexists. split; [reflexivity | ]. right. right.
      split; [reflexivity | ]. apply violates_true_inv in Hfree. exact Hfree.
    + left. unfold insert. rewrite find_snoc.
      * cbn -[violates fresh_id]. rewrite String.eqb_refl.
        eexists. split; [reflexivity | ]. repeat split; reflexivity.
      * apply Forall_forall. intros r Hr.
        destruct (violates_false_inv _ r table Hfree Hr) as [He _].
        apply String.eqb_neq. exact He.
  - right. exists e. apply hash_raises in Hhash.
    destruct Hhash as [-> | ->]; cbn; (split; [reflexivity | auto]).
Qed.

(** What a successful [register] on a fresh session has done. *)
Lemma register_returned (salt : string) (user_data : UserCreate.t)
    (db db' : Session) (user : User.t) :
  new db = [] ->
  register salt user_data db = (Ok user, db') ->
  db' = mkSession (rows db ++ [user]) []
  /\ User.email user = lower (UserCreate.email user_data)
  /\ User.username user = UserCreate.username user_data
  /\ User.id user = Some (fresh_id (rows db)).
Proof using Type.
  intros Hnew. destruct db as [table pending]. cbn in Hnew. subst pending.
  unfold register. unfold_monad. cbn [rows].
  destruct (register_checks_outcomes user_data (mkSession table []))
    as [Hchecks | [Hchecks | Hchecks]]; rewrite Hchecks; try discriminate.
  destruct (register_create_outcomes salt user_data table)
    as [(u & -> & He & Hu & Hid) | (e & -> & _)]; [ | discriminate].
  intros [= -> <-]. auto.
Qed.

(** X5: a successful [register] leaves every other lookup as it was: an
    email that is no case variant of the new one, another username, another
    id resolve after the write to what they resolved to before. *)
Theorem register_leaves_others (salt : string) (user_data : UserCreate.t)
    (db db' : Session) (user : User.t) (email username : string) (user_id : Z) :
  new db = [] ->
  register salt user_data db = (Ok user, db') ->
  lower email <> lower (UserCreate.email user_data) ->
  username <> UserCreate.username user_data ->
  user_id <> fresh_id (rows db) ->
  fst (get_user_by_email email db') = fst (get_user_by_email email db)
  /\ fst (get_user_by_username username db') = fst (get_user_by_username username db)
  /\ fst (get_user_by_id user_id db') = fst (get_user_by_id user_id db).
Proof using Type.
  intros Hnew Hregister Hemail Hname Hid.
  destruct (register_returned salt user_data db db' user Hnew Hregister)
    as (-> & He & Hu & Hi).
  unfold get_user_by_email, get_user_by_username, get_user_by_id, query_first.
  cbn [fst rows]. repeat split; f_equal; apply find_snoc_other.
  - apply String.eqb_neq. congruence.
  - apply String.eqb_neq. congruence.
  - apply bool_decide_eq_false. congruence.
Qed.

(** X6: [register] on a fresh session is all-or-nothing and maps every
    store conflict: it either returns the user and appends exactly that
    row, or raises and leaves the session as it was - with 409 "Email
    already registered", 409 "Username already taken", or the hasher's
    refusal of the password.  Without a concurrent writer the handler
    around the write is never reached. *)
Theorem register_all_or_nothing (salt : string) (user_data : UserCreate.t)
    (db : Session) :
  new db = [] ->
  (exists user,
     register salt user_data db = (Ok user, mkSession (rows db ++ [user]) [])
     /\ User.email user = lower (UserCreate.email user_data)
     /\ User.username user = UserCreate.username user_data)
  \/ (exists e,
        register salt user_data db = (Raise e, db)
        /\ e ∈ [HTTPException 409 "Email already registered" [];
                HTTPException 409 "Username already taken" [];
                PasswordSizeError; PasswordValueError]).
Proof using Type.
  intros Hnew. destruct db as [table pending]. cbn in Hnew. subst pending.
  unfold register. unfold_monad.
  destruct (register_checks_outcomes user_data (mkSession table []))
    as [Hchecks | [Hchecks | Hchecks]].
  - assert (Hfree := checks_pass_free user_data (mkSession table [])).
    rewrite Hchecks in Hfree. specialize (Hfree eq_refl). cbn [rows] in Hfree.
    rewrite Hchecks.
    destruct (register_create_outcomes salt user_data table)
      as [(user & -> & He & Hu & _) | (e & -> & [-> | [-> | [-> (r & Hr & Htaken)]]])].
    + left. exists user. auto.
    + right. eexists. split; [reflexivity | apply list_elem_of_In; cbn; auto].
    + right. eexists. split; [reflexivity | apply list_elem_of_In; cbn; auto 6].
    + exfalso. rewrite Forall_forall in Hfree.
      destruct (Hfree r Hr) as [He Hu]. destruct Htaken; contradiction.
  - rewrite Hchecks. right. eexists.
    split; [reflexivity | apply list_elem_of_In; cbn; auto].
  - rewrite Hchecks. right. eexists.
    split; [reflexivity | apply list_elem_of_In; cbn; auto].
Qed.

(** X7: with another client committing between the checks and the write,
    [register] on a fresh session still ends in one of three ways: the user
    is returned and appended to what the other client left; a check raised
    its 409 before the other commit; or the write failed - the hasher's
    refusal or 409 "User already exists" - with the table as the other
    client left it.  Nothing stays pending and no [IntegrityError] escapes. *)
Theorem register_racing_outcomes (other : list User.t -> list User.t)
    (salt : string) (user_data : UserCreate.t) (db : Session) :
  new db = [] ->
  (exists user,
     register_racing other salt user_data db
     = (Ok user, mkSession (other (rows db) ++ [user]) []))
  \/ (exists e,
        register_racing other salt user_data db = (Raise e, db)
        /\ e ∈ [HTTPException 409 "Email already registered" [];
                HTTPException 409 "Username already taken" []])
  \/ (exists e,
        register_racing other salt user_data db
        = (Raise e, mkSession (other (rows db)) [])
        /\ e ∈ [HTTPException 409 "User already exists" [];
                PasswordSizeError; PasswordValueError]).
Proof using Type.
  intros Hnew. destruct db as [table pending]. cbn in Hnew. subst pending.
  cbn [rows]. unfold register_racing. unfold_monad.
  destruct (register_checks_outcomes user_data (mkSession table []))
    as [Hchecks | [Hchecks | Hchecks]]; rewrite Hchecks.
  - unfold concurrently. cbn [rows new].
    destruct (register_create_outcomes salt user_data (other table))
      as [(user & -> & _) | (e & -> & [-> | [-> | [-> _]]])].
    + left. exists user. reflexivity.
    + right. right. eexists. split; [reflexivity | apply list_elem_of_In; cbn; auto].
    + right. right. eexists. split; [reflexivity | apply list_elem_of_In; cbn; auto].
    + right. right. eexists. split; [reflexivity | apply list_elem_of_In; cbn; auto].
  - right. left. eexists. split; [reflexivity | apply list_elem_of_In; cbn; auto].
  - right. left. eexists. split; [reflexivity | apply list_elem_of_In; cbn; auto].
Qed.

(** X8: identities are unique up to letter case: once [register] has
    stored an email, a registration under any case variant of it - whatever
    its username and password - is answered 409 "Email already registered"
    and writes nothing. *)
Theorem register_case_variant_conflicts (salt salt' : string)
    (user_data again : UserCreate.t) (db db' : Session) (user : User.t) :
  new db = [] ->
  register salt user_data db = (Ok user, db') ->
  case_variant (UserCreate.email user_data) (UserCreate.email again) ->
  register salt' again db'
  = (Raise (HTTPException 409 "Email already registered" []), db').
Proof using Type.
  intros Hnew Hregister Hvariant.
  destruct (register_returned salt user_data db db' user Hnew Hregister)
    as (-> & He & _).
  unfold register, register_checks, get_user_by_email, query_first.
  unfold_monad. cbn [rows]. rewrite Hvariant, <- He.
  destruct (List.find _ _) eqn:Hfind; [reflexivity | ].
  apply find_none_forall in Hfind. rewrite Forall_forall in Hfind.
  specialize (Hfind user). rewrite String.eqb_refl in Hfind.
  discriminate Hfind. apply elem_of_app. right. apply list_elem_of_here.
Qed.

End Registration.

(** *** Sessions: issue, decode, log in, authenticate *)

Section Sessions.
Context {py : PyStr} {handler : Passlib.Handler} {backend : Jose.Backend}.
Context {handler_laws : Passlib.HandlerLaws} {backend_laws : Jose.BackendLaws}.
Variable settings : Settings.

(** The expiry [create_access_token] computes before it encodes. *)
Definition expiry (clock : Z) (expires_delta : option Z) : result Z :=
  match expires_delta with
  | Some delta =>
      if delta =? 0
      then (d ← Datetime.minutes (ACCESS_TOKEN_EXPIRE_MINUTES settings);
            Datetime.add clock d)
      else Datetime.add clock delta
  | None =>
      d ← Datetime.minutes (ACCESS_TOKEN_EXPIRE_MINUTES settings);
      Datetime.add clock d
  end.

Lemma create_access_token_encodes (clock : Z) (data : gmap string pyval)
    (expires_delta : option Z) :
  create_access_token settings clock data expires_delta
  = (expire ← expiry clock expires_delta;
     Jose.encode (<["exp" := PDatetime expire]> data)
                 (SECRET_KEY settings) (ALGORITHM settings)).
Proof using Type. reflexivity. Qed.

Lemma add_in_range (clock delta expire : Z) :
  Datetime.add clock delta = Ok expire ->
  expire = clock + delta /\ Datetime.in_range expire = true.
Proof using Type.
  unfold Datetime.add. destruct (Datetime.in_range (clock + delta)) eqn:Hrange;
    [ | discriminate]. intros [= <-]. auto.
Qed.

Lemma expiry_in_range (clock expire : Z) (expires_delta : option Z) :
  expiry clock expires_delta = Ok expire ->
  Datetime.in_range expire = true
  /\ (forall delta, expires_delta = Some delta -> delta <> 0 -> expire = clock + delta).
Proof using Type.
  unfold expiry. unfold_monad. destruct expires_delta as [delta | ].
  - destruct (delta =? 0) eqn:Hzero.
    + destruct (Datetime.minutes _) as [d | ]; [ | discriminate].
      intros [_ Hrange]%add_in_range. split; [exact Hrange | ].
      intros ? [= <-] Hne. apply Z.eqb_eq in Hzero. contradiction.
    + intros [-> Hrange]%add_in_range. split; [exact Hrange | ].
      intros ? [= <-] _. reflexivity.
  - destruct (Datetime.minutes _) as [d | ]; [ | discriminate].
    intros [_ Hrange]%add_in_range. split; [exact Hrange | discriminate].
Qed.

(** X9: every token [create_access_token] issues carries an integer "exp",
    the computed expiry in whole seconds and a representable date - also
    when the caller's claims bring an "exp" of their own - next to the
    caller's other claims, unchanged (save a date under "iat" or "nbf"). *)
Theorem issued_token_carries_expiry (clock : Z) (data : gmap string pyval)
    (expires_delta : option Z) (token : string) :
  create_access_token settings clock data expires_delta = Ok token ->
  exists claims expire,
    token = Jose.jws_sign claims (SECRET_KEY settings) (ALGORITHM settings)
    /\ claims !! "exp" = Some (PInt (Datetime.timestamp expire))
    /\ Datetime.in_range expire = true
    /\ (forall delta, expires_delta = Some delta -> delta <> 0 ->
          expire = clock + delta)
    /\ (forall name, name ∉ ["exp"; "iat"; "nbf"] -> claims !! name = data !! name)
    /\ json_ok claims = true.
Proof using Type.
  rewrite create_access_token_encodes. unfold_monad.
  destruct (expiry clock expires_delta) as [expire | ] eqn:Hexpiry; [ | discriminate].
  apply expiry_in_range in Hexpiry as [Hrange Hdelta].
  unfold Jose.encode.
  set (claims := foldr (fun time_claim c => alter Jose.to_timestamp time_claim c)
                       (<["exp" := PDatetime expire]> data) ["exp"; "iat"; "nbf"]).
  destruct (Jose.alg_supported _); [ | discriminate].
  destruct (json_ok claims) eqn:Hjson; [ | discriminate].
  destruct (Jose.key_usable _ _); [ | discriminate]. cbn. intros [= <-].
  exists claims, expire. split; [reflexivity | ].
  split; [ | split; [exact Hrange | split; [exact Hdelta | split; [ | exact Hjson]]]].
  - subst claims. cbn [foldr]. rewrite lookup_alter_eq.
    rewrite !lookup_alter_ne by done. rewrite lookup_insert_eq. reflexivity.
  - intros name Hname. subst claims. cbn [foldr].
    rewrite !not_elem_of_cons in Hname. destruct Hname as (Hexp & Hiat & Hnbf & _).
    rewrite !lookup_alter_ne by congruence. rewrite lookup_insert_ne by congruence.
    reflexivity.
Qed.





Lemma validate_str_outcomes (name : string) (claims : gmap string pyval) :
  (Jose.validate_str name claims = Ok tt /\ str_or_absent claims name = true)
  \/ Jose.validate_str name claims = Raise JWTClaimsError.
Proof using Type.
  unfold Jose.validate_str, str_or_absent.
  destruct (claims !! name) as [[ | | | | | | | ] | ]; auto.
Qed.

(** How claim validation fails, and what a pass says about "sub": the
    failure is a [JWTError], or the [TypeError] or [OverflowError] that
    [int()] raised on one of the time claims. *)
Lemma validate_claims_outcomes (now : Z) (claims : gmap string pyval) :
  match Jose.validate_claims now claims with
  | Ok _ => str_or_absent claims "sub" = true
  | Raise e =>
      isinstance_JWTError e = true
      \/ ((e = TypeError \/ e = OverflowError)
          /\ exists name v,
               name ∈ ["iat"; "nbf"; "exp"]
               /\ claims !! name = Some v
               /\ Jose.int_claim v = Raise e)
  end.
Proof using Type.
  assert (Hint : forall name v e,
            name ∈ ["iat"; "nbf"; "exp"] -> claims !! name = Some v ->
            Jose.int_claim v = Raise e ->
            isinstance_JWTError e = true
            \/ ((e = TypeError \/ e = OverflowError)
                /\ exists name v,
                     name ∈ ["iat"; "nbf"; "exp"]
                     /\ claims !! name = Some v
                     /\ Jose.int_claim v = Raise e)).
  { intros name v e Hname Hv He.
    destruct (int_claim_raises v e He) as [-> | Hother]; [left; reflexivity | ].
    right. split; [exact Hother | ]. exists name, v. auto. }
  unfold Jose.validate_claims, Jose.validate_iat, Jose.validate_nbf,
    Jose.validate_exp, Jose.validate_aud, Jose.validate_at_hash.
  unfold_monad.
  destruct (claims !! "iat") as [iat | ] eqn:Hiat;
    [destruct (Jose.int_claim iat) as [n | e] eqn:Hn;
     [ | apply (Hint "iat" iat e); [apply list_elem_of_In; cbn; auto | done | done]]
    | ].
  all: destruct (claims !! "nbf") as [nbf | ] eqn:Hnbf;
    [destruct (Jose.int_claim nbf) as [m | e] eqn:Hm;
     [destruct (now <? m); [left; reflexivity | ]
     | apply (Hint "nbf" nbf e); [apply list_elem_of_In; cbn; auto | done | done]]
    | ].
  all: destruct (claims !! "exp") as [exp | ] eqn:Hexp;
    [destruct (Jose.int_claim exp) as [k | e] eqn:Hk;
     [destruct (k <? now); [left; reflexivity | ]
     | apply (Hint "exp" exp e); [apply list_elem_of_In; cbn; auto | done | done]]
    | ].
  all: destruct (claims !! "aud"); [left; reflexivity | ].
  all: destruct (validate_str_outcomes "sub" claims) as [[-> Hsub] | ->];
    [ | left; reflexivity].
  all: destruct (validate_str_outcomes "jti" claims) as [[-> _] | ->];
    [ | left; reflexivity].
  all: destruct (claims !! "at_hash"); [left; reflexivity | exact Hsub].
Qed.

(** A payload [jwt.decode] returns names its subject by a string, if at
    all. *)
Lemma decoded_subject (clock : Z) (token : string) (payload : gmap string pyval) :
  decode_access_token settings clock token = Ok (Some payload) ->
  payload !! "sub" = None \/ exists sub, payload !! "sub" = Some (PStr sub).
Proof using Type.
  unfold decode_access_token, Jose.decode. unfold_monad.
  destruct (Jose.verify _ _ _) as [signed | e];
    [ | destruct (isinstance_JWSError e); [discriminate | ];
        destruct (isinstance_JWTError e); discriminate].
  destruct (Jose.json_loads signed) as [[claims | other] | e];
    [ | discriminate
      | destruct (isinstance_ValueError e); [discriminate | ];
        destruct (isinstance_JWTError e); discriminate].
  pose proof (validate_claims_outcomes (Datetime.timestamp clock) claims) as Hsub.
  destruct (Jose.validate_claims _ claims) as [[] | e]; cbn.
  - intros [= <-]. revert Hsub. unfold str_or_absent.
    destruct (claims !! "sub") as [[ | | | | s | | | ] | ]; try discriminate; eauto.
  - destruct (isinstance_JWTError e); discriminate.
Qed.

(** What [_load] raises besides [JWSError] comes from reading the header. *)
Lemma load_raises (token : string) (e : exn) :
  Jose.load token = Raise e ->
  e = JWSError
  \/ exists header_segment claims_segment crypto_segment signing_input header_data,
       Jose.segments token
       = Some (header_segment, claims_segment, crypto_segment, signing_input)
       /\ Jose.base64url_decode header_segment = Some header_data
       /\ Jose.json_loads header_data = Raise e
       /\ isinstance_ValueError e = false.
Proof using Type.
  unfold Jose.load.
  destruct (Jose.segments token) as [[[[header_segment claims_segment]
                                        crypto_segment] signing_input] | ];
    [ | intros [= <-]; auto].
  destruct (Jose.base64url_decode header_segment) as [header_data | ] eqn:Hheader;
    [ | intros [= <-]; auto].
  destruct (Jose.json_loads header_data) as [[header | other] | e'] eqn:Hjson.
  - destruct (Jose.base64url_decode claims_segment); [ | intros [= <-]; auto].
    destruct (Jose.base64url_decode crypto_segment);
      [discriminate | intros [= <-]; auto].
  - intros [= <-]; auto.
  - destruct (isinstance_ValueError e') eqn:He; intros [= <-]; [auto | ].
    right. exists header_segment, claims_segment, crypto_segment, signing_input,
      header_data. auto.
Qed.

(** What [_verify_signature] raises besides [JWSError] comes from building
    the key, for a header that names the configured algorithm. *)
Lemma verify_signature_raises (signing_input signature : string)
    (header : gmap string pyval) (e : exn) :
  Jose.verify_signature signing_input header signature (SECRET_KEY settings)
                        [ALGORITHM settings] = Raise e ->
  e = JWSError
  \/ (header !! "alg" = Some (PStr (ALGORITHM settings))
      /\ Jose.sig_matches_keys (SECRET_KEY settings) signing_input signature
                               (ALGORITHM settings) = Raise e
      /\ isinstance_JWSError e = false).
Proof using Type.
  unfold Jose.verify_signature.
  destruct (header !! "alg") as [[ | | | | alg | | | ] | ];
    try (intros [= <-]; auto).
  destruct (String.eqb alg ""); [intros [= <-]; auto | ].
  destruct (bool_decide (alg ∈ [ALGORITHM settings])) eqn:Hin; cbn [negb];
    [ | intros [= <-]; auto].
  apply bool_decide_eq_true, list_elem_of_singleton in Hin as ->.
  destruct (Jose.sig_matches_keys _ _ _ _) as [[ | ] | e'] eqn:Hsig;
    [discriminate | intros [= <-]; auto | ].
  destruct (isinstance_JWSError e') eqn:He; intros [= <-]; auto.
Qed.

(** X12: [decode_access_token] turns every [JWTError], and every
    [JWSError] of the JWS layer, into [None]; an exception it lets through
    is no [JWTError] and comes from one of four places: [json.loads] of the header raised something other
    than a [ValueError]; building the key for a header that names the
    configured algorithm raised; [json.loads] of the verified payload
    raised something other than a [ValueError]; or [int()] raised
    [TypeError] or [OverflowError] on the "iat", "nbf" or "exp" of the
    verified claims. *)
Theorem decode_access_token_lets_through (clock : Z) (token : string) (e : exn) :
  decode_access_token settings clock token = Raise e ->
  isinstance_JWTError e = false
  /\ ((exists header_segment claims_segment crypto_segment signing_input header_data,
         Jose.segments token
         = Some (header_segment, claims_segment, crypto_segment, signing_input)
         /\ Jose.base64url_decode header_segment = Some header_data
         /\ Jose.json_loads header_data = Raise e
         /\ isinstance_ValueError e = false)
      \/ (exists header payload signing_input signature,
            Jose.load token = Ok (header, payload, signing_input, signature)
            /\ header !! "alg" = Some (PStr (ALGORITHM settings))
            /\ Jose.sig_matches_keys (SECRET_KEY settings) signing_input signature
                                     (ALGORITHM settings) = Raise e)
      \/ (exists payload,
            Jose.verify token (SECRET_KEY settings) [ALGORITHM settings] = Ok payload
            /\ Jose.json_loads payload = Raise e
            /\ isinstance_ValueError e = false)
      \/ (exists payload claims name v,
            Jose.verify token (SECRET_KEY settings) [ALGORITHM settings] = Ok payload
            /\ Jose.json_loads payload = Ok (JObject claims)
            /\ name ∈ ["iat"; "nbf"; "exp"]
            /\ claims !! name = Some v
            /\ Jose.int_claim v = Raise e
            /\ (e = TypeError \/ e = OverflowError))).
Proof using Type.
  unfold decode_access_token.
  destruct (Jose.decode _ _ _ _) as [decoded | e0] eqn:Hdecode; [discriminate | ].
  destruct (isinstance_JWTError e0) eqn:Hjwt; [discriminate | ].
  intros [= Heq]. subst e0. split; [exact Hjwt | ].
  revert Hdecode. unfold Jose.decode.
  destruct (Jose.verify _ _ _) as [payload | e1] eqn:Hverify.
  - destruct (Jose.json_loads payload) as [[claims | other] | e2] eqn:Hjson.
    + pose proof (validate_claims_outcomes (Datetime.timestamp clock) claims) as Hout.
      unfold_monad.
      destruct (Jose.validate_claims _ claims) as [[] | e3]; [discriminate | ].
      intros [= Heq]. subst e3.
      destruct Hout as [He | (He & name & v & Hname & Hv & Hint)]; [congruence | ].
      right. right. right. exists payload, claims, name, v. auto 10.
    + intros [= Heq]. subst e. discriminate.
    + destruct (isinstance_ValueError e2) eqn:He; intros [= Heq]; subst e;
        [discriminate | ].
      right. right. left. exists payload. auto.
  - destruct (isinstance_JWSError e1) eqn:Hjws; intros [= Heq]; subst e;
      [discriminate | ].
    revert Hverify. unfold Jose.verify. unfold_monad.
    destruct (Jose.load token)
      as [[[[header payload] signing_input] signature] | e2] eqn:Hload.
    + destruct (Jose.verify_signature _ _ _ _ _) as [[] | e3] eqn:Hsig;
        [discriminate | ].
      intros [= Heq]. subst e3.
      destruct (verify_signature_raises _ _ _ _ Hsig) as [-> | (Halg & Hkey & _)];
        [discriminate | ].
      right. left. exists header, payload, signing_input, signature. auto.
    + intros [= Heq]. subst e2.
      destruct (load_raises _ _ Hload)
        as [-> | (header_segment & claims_segment & crypto_segment & signing_input
                  & header_data & Hsegments & Hheader & Hjson & He)];
        [discriminate | ].
      left. exists header_segment, claims_segment, crypto_segment, signing_input,
        header_data. auto.
Qed.

(** X13: [get_current_user] ends in one of three ways, whatever the token
    and the store: it returns a stored user whose email is the lower-cased
    "sub" of the decoded payload; it raises the 401 credentials exception;
    or it passes on the exception [decode_access_token] let through, which
    is no [JWTError].  The [TokenData] it builds never fails, since a
    decoded "sub" is a string. *)
Theorem get_current_user_outcomes (clock : Z) (token : string) (db : Session) :
  (exists user payload sub,
     get_current_user settings clock token db = (Ok user, db)
     /\ decode_access_token settings clock token = Ok (Some payload)
     /\ payload !! "sub" = Some (PStr sub)
     /\ user ∈ rows db
     /\ User.email user = lower sub)
  \/ get_current_user settings clock token db
     = (Raise (HTTPException 401 "Could not validate credentials"
                             [("WWW-Authenticate", "Bearer")]), db)
  \/ (exists e,
        decode_access_token settings clock token = Raise e
        /\ isinstance_JWTError e = false
        /\ get_current_user settings clock token db = (Raise e, db)).
Proof using Type.
  unfold get_current_user. unfold_monad.
  destruct (decode_access_token settings clock token) as [[payload | ] | e] eqn:Hdecode.
  - destruct (decoded_subject clock token payload Hdecode) as [Hsub | [sub Hsub]];
      rewrite Hsub; [right; left; reflexivity | ].
    cbn [TokenData]. unfold get_user_by_email, query_first.
    destruct (List.find _ (rows db)) as [user | ] eqn:Hfind;
      [ | right; left; reflexivity].
    left. exists user, payload, sub. apply List.find_some in Hfind as [Hin He].
    split; [reflexivity | ]. split; [reflexivity | ]. split; [exact Hsub | ].
    split; [apply list_elem_of_In; exact Hin | apply String.eqb_eq; exact He].
  - right. left. reflexivity.
  - right. right. exists e. split; [reflexivity | ]. split; [ | reflexivity].
    revert Hdecode. unfold decode_access_token.
    destruct (Jose.decode _ _ _ _) as [payload | e']; [discriminate | ].
    destruct (isinstance_JWTError e') eqn:He; [discriminate | ].
    intros [= <-]. exact He.
Qed.

(** X14: [login] and [get_current_user] only read: whatever they answer,
    the session - committed rows and pending objects - is as it was. *)
Theorem login_and_get_current_user_read_only (clock : Z) (user_data : UserLogin.t)
    (token : string) (db : Session) :
  snd (login settings clock user_data db) = db
  /\ snd (get_current_user settings clock token db) = db.
Proof using Type.
  split.
  - unfold login, get_user_by_email, query_first. unfold_monad.
    destruct (List.find _ (rows db)) as [user | ]; [ | reflexivity].
    destruct (verify_password _ _) as [[ | ] | e]; cbn [negb]; try reflexivity.
    destruct (Datetime.minutes _) as [delta | e]; [ | reflexivity].
    destruct (create_access_token settings clock _ _); reflexivity.
  - unfold get_current_user. unfold_monad.
    destruct (decode_access_token settings clock token) as [[payload | ] | e]
      eqn:Hdecode; try reflexivity.
    destruct (decoded_subject clock token payload Hdecode) as [Hsub | [sub Hsub]];
      rewrite Hsub; [reflexivity | ].
    cbn [TokenData]. unfold get_user_by_email, query_first.
    destruct (List.find _ (rows db)); reflexivity.
Qed.

(** What [verify_password] answers against a hash [get_password_hash] made. *)
Lemma verify_against_hash (salt registered secret hashed : string) :
  get_password_hash salt registered = Ok hashed ->
  verify_password secret hashed
  = (_ ← Passlib.validate_secret secret;
     if Passlib.has_nul secret then Raise PasswordValueError
     else Ok (String.eqb (Passlib.calc_checksum (Passlib.genconfig salt) secret)
                         (Passlib.calc_checksum (Passlib.genconfig salt) registered))).
Proof using handler_laws.
  unfold get_password_hash, verify_password, Passlib.hash, Passlib.verify,
    Passlib.digest. unfold_monad.
  destruct (Passlib.validate_secret registered) as [[] | ]; [ | discriminate].
  destruct (Passlib.has_nul registered); [discriminate | ]. cbn. intros [= <-].
  rewrite Passlib.identify_to_string. cbn.
  destruct (Passlib.validate_secret secret) as [[] | ]; [ | reflexivity].
  rewrite Passlib.from_string_to_string.
  destruct (Passlib.has_nul secret); reflexivity.
Qed.

(** X15: for a registered user - a record whose hash [get_password_hash]
    made - and a secret the hasher takes, [login] is decided by the digests
    under the stored salt: equal digests give a bearer token (when the
    configuration can issue one), different digests the 401 "Incorrect
    email or password"; the store is not written either way. *)
Theorem login_decided_by_digest (clock : Z) (salt registered : string)
    (user_data : UserLogin.t) (db : Session) (user : User.t) :
  fst (get_user_by_email (UserLogin.email user_data) db) = Ok (Some user) ->
  get_password_hash salt registered = Ok (User.password_hash user) ->
  Passlib.secret_accepted (UserLogin.password user_data) = true ->
  can_issue settings clock ->
  (Passlib.calc_checksum (Passlib.genconfig salt) (UserLogin.password user_data)
   = Passlib.calc_checksum (Passlib.genconfig salt) registered ->
   exists token,
     login settings clock user_data db = (Ok (Token.mk token "bearer"), db))
  /\ (Passlib.calc_checksum (Passlib.genconfig salt) (UserLogin.password user_data)
      <> Passlib.calc_checksum (Passlib.genconfig salt) registered ->
      login settings clock user_data db
      = (Raise (HTTPException 401 "Incorrect email or password"
                              [("WWW-Authenticate", "Bearer")]), db)).
Proof using handler_laws.
  intros Hfind Hhash Hsecret (Hsign & delta & Hminutes & Hrange).
  pose proof (verify_against_hash salt registered (UserLogin.password user_data)
                _ Hhash) as Hverify.
  apply validate_secret_accepted in Hsecret as [Hsize Hnul].
  rewrite Hsize, Hnul in Hverify. cbn in Hverify.
  revert Hfind. unfold login, get_user_by_email, query_first. unfold_monad.
  cbn [fst]. intros [= ->]. rewrite Hverify. split.
  - intros ->. rewrite String.eqb_refl. cbn [negb].
    rewrite Hminutes.
    rewrite (create_access_token_for_login settings clock delta _ Hsign Hminutes Hrange).
    eexists. reflexivity.
  - intros Hne. apply String.eqb_neq in Hne. rewrite Hne. reflexivity.
Qed.


End Sessions.

(** ** A scenario on the reference instances *)

Module Scenario.
Import Ref.

Definition clock : Z := 1700000000500000.

Definition empty : Session := mkSession [] [].

(** The store after bob has registered. *)
Definition with_bob : Session :=
  snd (register "Xk2pQ9" (UserCreate.mk "bob" "Bob@X.com" "longenough1") empty).

Definition bob : User.t :=
  User.mk (Some 1) "bob" "bob@x.com"
          (match get_password_hash "Xk2pQ9" "longenough1" with
           | Ok hashed => hashed
           | Raise _ => ""
           end)
          true.

Definition issue (data : gmap string pyval) : string :=
  match create_access_token settings clock data (Some 1800000000) with
  | Ok token => token
  | Raise _ => ""
  end.

(** A token for bob, and one that names no subject. *)
Definition bob_token : string := issue {["sub" := PStr "bob@x.com"]}.
Definition anonymous_token : string := issue ∅.

(** The store when alice registered first. *)
Definition with_alice : Session :=
  snd (register "aS3dF4" (UserCreate.mk "alice" "Alice@X.com" "correcthorse") empty).

Definition bob_data : UserCreate.t := UserCreate.mk "bob" "Bob@X.com" "longenough1".

(** Bob's row when he registers after alice, and the store then. *)
Definition bob_after_alice : User.t :=
  User.mk (Some 2) "bob" "bob@x.com" (User.password_hash bob) true.

Definition with_both : Session := snd (register "Xk2pQ9" bob_data with_alice).

(** A signed token whose "exp" is null. *)
Definition null_exp_token : string :=
  jws_sign {["sub" := PStr "bob@x.com"; "exp" := PNone]}
           (SECRET_KEY settings) (ALGORITHM settings).


(** The scenarios of the test suite. *)

Example registered_row : rows with_bob = [bob].
Proof. vm_compute. reflexivity. Qed.

Example login_with_upper_case_email :
  fst (login settings clock (UserLogin.mk "BOB@X.COM" "longenough1") with_bob)
  = Ok (Token.mk bob_token "bearer").
Proof. vm_compute. reflexivity. Qed.

Example me_with_valid_token :
  fst (get_current_user settings clock bob_token with_bob) = Ok bob.
Proof. vm_compute. reflexivity. Qed.

Example me_with_invalid_token :
  fst (get_current_user settings clock "invalid_token_here" with_bob)
  = Raise (HTTPException 401 "Could not validate credentials"
                         [("WWW-Authenticate", "Bearer")]).
Proof. vm_compute. reflexivity. Qed.

Example decode_expired_token :
  (create_access_token settings clock {["sub" := PStr "expired@example.com"]}
     (Some (-10000000))
   ≫= decode_access_token settings clock) = Ok None.
Proof. vm_compute. reflexivity. Qed.

Example decode_custom_claim :
  (create_access_token settings clock
     {["sub" := PStr "decode@example.com"; "custom_claim" := PStr "value"]} None
   ≫= decode_access_token settings clock)
  = Ok (Some (<["exp" := PInt 1700001800]>
                {["sub" := PStr "decode@example.com"; "custom_claim" := PStr "value"]})).
Proof. vm_compute. reflexivity. Qed.

Example wrong_password_does_not_verify :
  verify_password "wrongpassword" (User.password_hash bob) = Ok false.
Proof. vm_compute. reflexivity. Qed.

Example duplicate_email_is_an_integrity_error :
  fst (create_user "q7Lm2Z" "user2" "bob@x.com" "password456" with_bob)
  = Raise IntegrityError.
Proof. vm_compute. reflexivity. Qed.

End Scenario.



(** C6: a second registration under bob's email and bob's username. *)
Lemma register_reports_email_conflict_first_witness :
  register (py := Ref.py_str) (handler := Ref.bcrypt) "q7Lm2Z"
    (UserCreate.mk "bob" "BOB@x.com" "different1") Scenario.with_bob
  = (Raise (HTTPException 409 "Email already registered" []), Scenario.with_bob).
Proof.
  apply (register_reports_email_conflict_first (py := Ref.py_str)
           (handler := Ref.bcrypt) "q7Lm2Z"
           (UserCreate.mk "bob" "BOB@x.com" "different1") Scenario.with_bob
           Scenario.bob Scenario.bob).
  - vm_compute. reflexivity.
  - vm_compute. reflexivity.
Defined.

(** C8: bob's token after bob's record is gone. *)
Lemma get_current_user_unknown_subject_witness :
  get_current_user (py := Ref.py_str) (backend := Ref.jose) Ref.settings
    Scenario.clock Scenario.bob_token Scenario.empty
  = (Raise (HTTPException 401 "Could not validate credentials"
                          [("WWW-Authenticate", "Bearer")]), Scenario.empty).
Proof.
  apply (get_current_user_unknown_subject (py := Ref.py_str) (backend := Ref.jose)
           Ref.settings Scenario.clock Scenario.bob_token Scenario.empty
           (<["exp" := PInt 1700001800]> {["sub" := PStr "bob@x.com"]}) "bob@x.com").
  - vm_compute. reflexivity.
  - vm_compute. reflexivity.
  - reflexivity.
Defined.

(** C10: a signed, unexpired token with no "sub". *)
Lemma get_current_user_missing_subject_witness :
  get_current_user (py := Ref.py_str) (backend := Ref.jose) Ref.settings
    Scenario.clock Scenario.anonymous_token Scenario.with_bob
  = (Raise (HTTPException 401 "Could not validate credentials"
                          [("WWW-Authenticate", "Bearer")]), Scenario.with_bob)
  /\ forall invalid,
       decode_access_token (backend := Ref.jose) Ref.settings Scenario.clock invalid
       = Ok None ->
       get_current_user (py := Ref.py_str) (backend := Ref.jose) Ref.settings
         Scenario.clock invalid Scenario.with_bob
       = get_current_user (py := Ref.py_str) (backend := Ref.jose) Ref.settings
           Scenario.clock Scenario.anonymous_token Scenario.with_bob.
Proof.
  apply (get_current_user_missing_subject (py := Ref.py_str) (backend := Ref.jose)
           Ref.settings Scenario.clock Scenario.anonymous_token Scenario.with_bob
           (<["exp" := PInt 1700001800]> ∅)).
  - vm_compute. reflexivity.
  - left. vm_compute. reflexivity.
Defined.

(** C9: rob asks for the username "bob" while bob's own registration
    commits in between. *)
Lemma register_race_surfaces_conflict_witness :
  register_racing (py := Ref.py_str) (handler := Ref.bcrypt)
    (fun _ => rows Scenario.with_bob) "q7Lm2Z"
    (UserCreate.mk "bob" "rob@x.com" "different1") Scenario.empty
  = (Raise (HTTPException 409 "User already exists" []),
     mkSession (rows Scenario.with_bob) []).
Proof.
  apply (register_race_surfaces_conflict (py := Ref.py_str)
           (handler_laws := Ref.bcrypt_laws)
           (fun _ => rows Scenario.with_bob) "q7Lm2Z"
           (UserCreate.mk "bob" "rob@x.com" "different1") Scenario.empty
           Scenario.bob).
  - reflexivity.
  - reflexivity.
  - reflexivity.
  - vm_compute. apply list_elem_of_here.
  - right. reflexivity.
Defined.

(** C7: bob registers as "Bob@X.com" after alice. *)
Lemma identity_is_case_insensitive_witness :
  exists user db',
    create_user (py := Ref.py_str) (handler := Ref.bcrypt)
      "Xk2pQ9" "bob" "Bob@X.com" "longenough1" Scenario.with_alice = (Ok user, db')
    /\ User.email user = lower (PyStr := Ref.py_str) "Bob@X.com"
    /\ user ∈ rows db'
    /\ forall email', case_variant (py := Ref.py_str) "Bob@X.com" email' ->
         get_user_by_email (py := Ref.py_str) email' db' = (Ok (Some user), db')
         /\ forall clock, can_issue (backend := Ref.jose) Ref.settings clock ->
              exists token,
                login (py := Ref.py_str) (handler := Ref.bcrypt) (backend := Ref.jose)
                  Ref.settings clock (UserLogin.mk email' "longenough1") db'
                = (Ok (Token.mk token "bearer"), db').
Proof.
  apply (identity_is_case_insensitive (py := Ref.py_str)
           (handler_laws := Ref.bcrypt_laws) (backend := Ref.jose) Ref.settings
           "Xk2pQ9" "bob" "Bob@X.com" "longenough1" Scenario.with_alice).
  - reflexivity.
  - reflexivity.
  - vm_compute. constructor; [split; discriminate | constructor].
Defined.

(** Rob asks for the username "bob" once bob is registered. *)
Lemma register_reports_username_conflict_witness :
  register (py := Ref.py_str) (handler := Ref.bcrypt) "q7Lm2Z"
    (UserCreate.mk "bob" "rob@x.com" "different1") Scenario.with_bob
  = (Raise (HTTPException 409 "Username already taken" []), Scenario.with_bob).
Proof.
  apply (register_reports_username_conflict (py := Ref.py_str)
           (handler := Ref.bcrypt) "q7Lm2Z"
           (UserCreate.mk "bob" "rob@x.com" "different1") Scenario.with_bob
           Scenario.bob).
  - vm_compute. reflexivity.
  - vm_compute. reflexivity.
Defined.

(** Bob logs in under an upper-case address and is then authenticated. *)
Lemma login_token_authenticates_witness :
  exists token,
    login (py := Ref.py_str) (handler := Ref.bcrypt) (backend := Ref.jose)
      Ref.settings Scenario.clock (UserLogin.mk "BOB@X.COM" "longenough1")
      Scenario.with_bob
    = (Ok (Token.mk token "bearer"), Scenario.with_bob)
    /\ decode_access_token (backend := Ref.jose) Ref.settings Scenario.clock token
       = Ok (Some (<["exp" := PInt (Datetime.timestamp (Scenario.clock + 1800000000))]>
                     {["sub" := PStr (User.email Scenario.bob)]}))
    /\ get_current_user (py := Ref.py_str) (backend := Ref.jose) Ref.settings
         Scenario.clock token Scenario.with_bob
       = (Ok Scenario.bob, Scenario.with_bob).
Proof.
  apply (login_token_authenticates (py := Ref.py_str) (handler := Ref.bcrypt)
           (backend_laws := Ref.jose_laws) Ref.settings Scenario.clock 1800000000
           (UserLogin.mk "BOB@X.COM" "longenough1") Scenario.with_bob Scenario.bob).
  - vm_compute. reflexivity.
  - reflexivity.
  - vm_compute. reflexivity.
  - reflexivity.
  - reflexivity.
  - reflexivity.
  - lia.
Defined.

(** X4: bob registers after alice. *)
Lemma register_then_lookup_witness :
  exists user db',
    register (py := Ref.py_str) (handler := Ref.bcrypt) "Xk2pQ9" Scenario.bob_data
      Scenario.with_alice = (Ok user, db')
    /\ db' = mkSession (rows Scenario.with_alice ++ [user]) []
    /\ User.email user = lower (PyStr := Ref.py_str) (UserCreate.email Scenario.bob_data)
    /\ User.username user = UserCreate.username Scenario.bob_data
    /\ User.is_active user = true
    /\ User.id user = Some (fresh_id (rows Scenario.with_alice))
    /\ verify_password (handler := Ref.bcrypt)
         (UserCreate.password Scenario.bob_data) (User.password_hash user) = Ok true
    /\ get_user_by_email (py := Ref.py_str) (UserCreate.email Scenario.bob_data) db'
       = (Ok (Some user), db')
    /\ get_user_by_username (UserCreate.username Scenario.bob_data) db'
       = (Ok (Some user), db')
    /\ get_user_by_id (fresh_id (rows Scenario.with_alice)) db' = (Ok (Some user), db').
Proof.
  apply (register_then_lookup (py := Ref.py_str) (handler_laws := Ref.bcrypt_laws)
           "Xk2pQ9" Scenario.bob_data Scenario.with_alice).
  - reflexivity.
  - reflexivity.
  - vm_compute. constructor; [split; discriminate | constructor].
Defined.

(** X5: alice's lookups are what they were once bob has registered. *)
Lemma register_leaves_others_witness :
  fst (get_user_by_email (py := Ref.py_str) "ALICE@x.com" Scenario.with_both)
  = fst (get_user_by_email (py := Ref.py_str) "ALICE@x.com" Scenario.with_alice)
  /\ fst (get_user_by_username "alice" Scenario.with_both)
     = fst (get_user_by_username "alice" Scenario.with_alice)
  /\ fst (get_user_by_id 1 Scenario.with_both)
     = fst (get_user_by_id 1 Scenario.with_alice).
Proof.
  apply (register_leaves_others (py := Ref.py_str) (handler := Ref.bcrypt)
           "Xk2pQ9" Scenario.bob_data Scenario.with_alice Scenario.with_both
           Scenario.bob_after_alice "ALICE@x.com" "alice" 1).
  - reflexivity.
  - vm_compute. reflexivity.
  - vm_compute. discriminate.
  - vm_compute. discriminate.
  - vm_compute. discriminate.
Defined.

(** X6 on the store that holds bob, for a second "bob". *)
Lemma register_all_or_nothing_witness :
  (exists user,
     register (py := Ref.py_str) (handler := Ref.bcrypt) "q7Lm2Z"
       (UserCreate.mk "bob" "rob@x.com" "different1") Scenario.with_bob
     = (Ok user, mkSession (rows Scenario.with_bob ++ [user]) [])
     /\ User.email user
        = lower (PyStr := Ref.py_str)
            (UserCreate.email (UserCreate.mk "bob" "rob@x.com" "different1"))
     /\ User.username user
        = UserCreate.username (UserCreate.mk "bob" "rob@x.com" "different1"))
  \/ (exists e,
        register (py := Ref.py_str) (handler := Ref.bcrypt) "q7Lm2Z"
          (UserCreate.mk "bob" "rob@x.com" "different1") Scenario.with_bob
        = (Raise e, Scenario.with_bob)
        /\ e ∈ [HTTPException 409 "Email already registered" [];
                HTTPException 409 "Username already taken" [];
                PasswordSizeError; PasswordValueError]).
Proof.
  apply (register_all_or_nothing (py := Ref.py_str) (handler := Ref.bcrypt) "q7Lm2Z"
           (UserCreate.mk "bob" "rob@x.com" "different1") Scenario.with_bob).
  vm_compute. reflexivity.
Defined.

(** X7 in the race of C9's scenario. *)
Lemma register_racing_outcomes_witness :
  (exists user,
     register_racing (py := Ref.py_str) (handler := Ref.bcrypt)
       (fun _ => rows Scenario.with_bob) "q7Lm2Z"
       (UserCreate.mk "bob" "rob@x.com" "different1") Scenario.empty
     = (Ok user, mkSession ((fun _ => rows Scenario.with_bob) (rows Scenario.empty)
                            ++ [user]) []))
  \/ (exists e,
        register_racing (py := Ref.py_str) (handler := Ref.bcrypt)
          (fun _ => rows Scenario.with_bob) "q7Lm2Z"
          (UserCreate.mk "bob" "rob@x.com" "different1") Scenario.empty
        = (Raise e, Scenario.empty)
        /\ e ∈ [HTTPException 409 "Email already registered" [];
                HTTPException 409 "Username already taken" []])
  \/ (exists e,
        register_racing (py := Ref.py_str) (handler := Ref.bcrypt)
          (fun _ => rows Scenario.with_bob) "q7Lm2Z"
          (UserCreate.mk "bob" "rob@x.com" "different1") Scenario.empty
        = (Raise e, mkSession ((fun _ => rows Scenario.with_bob) (rows Scenario.empty)) [])
        /\ e ∈ [HTTPException 409 "User already exists" [];
                PasswordSizeError; PasswordValueError]).
Proof.
  apply (register_racing_outcomes (py := Ref.py_str) (handler := Ref.bcrypt)
           (fun _ => rows Scenario.with_bob) "q7Lm2Z"
           (UserCreate.mk "bob" "rob@x.com" "different1") Scenario.empty).
  reflexivity.
Defined.

(** X8: "BOB@x.COM" after "Bob@X.com". *)
Lemma register_case_variant_conflicts_witness :
  register (py := Ref.py_str) (handler := Ref.bcrypt) "q7Lm2Z"
    (UserCreate.mk "robert" "BOB@x.COM" "different1") Scenario.with_bob
  = (Raise (HTTPException 409 "Email already registered" []), Scenario.with_bob).
Proof.
  apply (register_case_variant_conflicts (py := Ref.py_str) (handler := Ref.bcrypt)
           "Xk2pQ9" "q7Lm2Z" Scenario.bob_data
           (UserCreate.mk "robert" "BOB@x.COM" "different1")
           Scenario.empty Scenario.with_bob Scenario.bob).
  - reflexivity.
  - vm_compute. reflexivity.
  - reflexivity.
Defined.

(** X9 on bob's token. *)
Lemma issued_token_carries_expiry_witness :
  exists claims expire,
    Scenario.bob_token
    = Jose.jws_sign (Backend := Ref.jose) claims (SECRET_KEY Ref.settings)
                    (ALGORITHM Ref.settings)
    /\ claims !! "exp" = Some (PInt (Datetime.timestamp expire))
    /\ Datetime.in_range expire = true
    /\ (forall delta, Some 1800000000 = Some delta -> delta <> 0 ->
          expire = Scenario.clock + delta)
    /\ (forall name, name ∉ ["exp"; "iat"; "nbf"] ->
          claims !! name = ({["sub" := PStr "bob@x.com"]} : gmap string pyval) !! name)
    /\ json_ok claims = true.
Proof.
  apply (issued_token_carries_expiry (backend := Ref.jose) Ref.settings Scenario.clock
           {["sub" := PStr "bob@x.com"]} (Some 1800000000) Scenario.bob_token).
  vm_compute. reflexivity.
Defined.



(** X12 on a signed token whose "exp" is null. *)
Lemma decode_access_token_lets_through_witness :
  decode_access_token (backend := Ref.jose) Ref.settings Scenario.clock
    Scenario.null_exp_token = Raise TypeError
  /\ isinstance_JWTError TypeError = false
  /\ ((exists header_segment claims_segment crypto_segment signing_input header_data,
         Jose.segments Scenario.null_exp_token
         = Some (header_segment, claims_segment, crypto_segment, signing_input)
         /\ Jose.base64url_decode (Backend := Ref.jose) header_segment
            = Some header_data
         /\ Jose.json_loads (Backend := Ref.jose) header_data = Raise TypeError
         /\ isinstance_ValueError TypeError = false)
      \/ (exists header payload signing_input signature,
            Jose.load (backend := Ref.jose) Scenario.null_exp_token
            = Ok (header, payload, signing_input, signature)
            /\ header !! "alg" = Some (PStr (ALGORITHM Ref.settings))
            /\ Jose.sig_matches_keys (Backend := Ref.jose)
                 (SECRET_KEY Ref.settings) signing_input signature
                 (ALGORITHM Ref.settings) = Raise TypeError)
      \/ (exists payload,
            Jose.verify (backend := Ref.jose) Scenario.null_exp_token
              (SECRET_KEY Ref.settings) [ALGORITHM Ref.settings] = Ok payload
            /\ Jose.json_loads (Backend := Ref.jose) payload = Raise TypeError
            /\ isinstance_ValueError TypeError = false)
      \/ (exists payload claims name v,
            Jose.verify (backend := Ref.jose) Scenario.null_exp_token
              (SECRET_KEY Ref.settings) [ALGORITHM Ref.settings] = Ok payload
            /\ Jose.json_loads (Backend := Ref.jose) payload = Ok (JObject claims)
            /\ name ∈ ["iat"; "nbf"; "exp"]
            /\ claims !! name = Some v
            /\ Jose.int_claim (backend := Ref.jose) v = Raise TypeError
            /\ (TypeError = TypeError \/ TypeError = OverflowError))).
Proof.
  assert (Hraised : decode_access_token (backend := Ref.jose) Ref.settings
                      Scenario.clock Scenario.null_exp_token = Raise TypeError)
    by (vm_compute; reflexivity).
  split; [exact Hraised | ].
  exact (decode_access_token_lets_through (backend := Ref.jose) Ref.settings
           Scenario.clock Scenario.null_exp_token TypeError Hraised).
Defined.

(** X15: bob's record, a wrong secret. *)
Lemma login_decided_by_digest_witness :
  (Passlib.calc_checksum (Handler := Ref.bcrypt)
     (Passlib.genconfig (Handler := Ref.bcrypt) "Xk2pQ9")
     (UserLogin.password (UserLogin.mk "BOB@X.COM" "wrongsecret"))
   = Passlib.calc_checksum (Handler := Ref.bcrypt)
       (Passlib.genconfig (Handler := Ref.bcrypt) "Xk2pQ9") "longenough1" ->
   exists token,
     login (py := Ref.py_str) (handler := Ref.bcrypt) (backend := Ref.jose)
       Ref.settings Scenario.clock (UserLogin.mk "BOB@X.COM" "wrongsecret")
       Scenario.with_bob
     = (Ok (Token.mk token "bearer"), Scenario.with_bob))
  /\ (Passlib.calc_checksum (Handler := Ref.bcrypt)
        (Passlib.genconfig (Handler := Ref.bcrypt) "Xk2pQ9")
        (UserLogin.password (UserLogin.mk "BOB@X.COM" "wrongsecret"))
      <> Passlib.calc_checksum (Handler := Ref.bcrypt)
           (Passlib.genconfig (Handler := Ref.bcrypt) "Xk2pQ9") "longenough1" ->
      login (py := Ref.py_str) (handler := Ref.bcrypt) (backend := Ref.jose)
        Ref.settings Scenario.clock (UserLogin.mk "BOB@X.COM" "wrongsecret")
        Scenario.with_bob
      = (Raise (HTTPException 401 "Incorrect email or password"
                              [("WWW-Authenticate", "Bearer")]), Scenario.with_bob)).
Proof.
  apply (login_decided_by_digest (py := Ref.py_str)
           (handler_laws := Ref.bcrypt_laws) (backend := Ref.jose) Ref.settings
           Scenario.clock "Xk2pQ9" "longenough1"
           (UserLogin.mk "BOB@X.COM" "wrongsecret") Scenario.with_bob Scenario.bob).
  - vm_compute. reflexivity.
  - reflexivity.
  - reflexivity.
  - split; [reflexivity | ]. exists 1800000000. split; reflexivity.
Defined.

